(** * CDN DNSSEC key lifecycle: rotation, deletion and the DB helpers

    A shallow embedding of the Traffic Ops packages [dbhelpers] and [cdn]
    (the DNSSEC handlers), with the properties their specification states.

    Go values are modelled as follows: [int64]/[uint64]/[time.Duration] are
    [Z] with the wrap-around written out; a Go [error] is [option error]
    where it may be nil; a Go map is a [gmap]; a slice of structs is a
    [list] of records (value semantics); the outside world (the KV cluster,
    the key factory, the status of the SQL transaction, the bools behind
    [*bool] pointers) is an explicit state threaded through the calls. *)

From Stdlib Require Import ZArith Lia.
From stdpp Require Import gmap strings list fin_maps pretty.

(** ** Go basics *)
Module golang.

(** A Go [error] value.  [sql_ErrNoRows] is the sentinel [sql.ErrNoRows],
    which the code compares by identity; every other error is made by
    [errors.New]. *)
Inductive error : Type :=
| sql_ErrNoRows
| errors_New (msg : string).

#[global] Instance error_eq_dec : EqDecision error.
Proof. solve_decision. Defined.

(** [err.Error()] *)
Definition Error (e : error) : string :=
  match e with
  | sql_ErrNoRows => "sql: no rows in result set"
  | errors_New msg => msg
  end.

(** A call that returns [(value, error)]. *)
Definition result (A : Type) : Type := error + A.

(** Conversion to [int64]: two's complement wrap-around. *)
Definition int64 (z : Z) : Z := ((z + 2 ^ 63) mod 2 ^ 64 - 2 ^ 63)%Z.

(** Conversion to [uint64]. *)
Definition uint64 (z : Z) : Z := (z mod 2 ^ 64)%Z.

(** [strings.Contains(s, substr)] *)
Fixpoint Contains (s substr : string) : bool :=
  String.prefix substr s
  || match s with
     | EmptyString => false
     | String _ s' => Contains s' substr
     end.

End golang.

(** ** Package time: [Duration] is an [int64] count of nanoseconds *)
Module time.

Definition Second : Z := 1000000000.
Definition Hour : Z := 3600 * Second.

(** [time.Duration(u)] for [u : uint64] *)
Definition Duration (u : Z) : Z := golang.int64 u.

(** [d * e] on [time.Duration] *)
Definition mul (d e : Z) : Z := golang.int64 (d * e).

(** [d / e] on [time.Duration]: Go's integer division truncates toward zero *)
Definition div (d e : Z) : Z := golang.int64 (Z.quot d e).

End time.

(** ** Package tc: the DNSSEC data model *)
Module tc.

Record DNSSECKeyDSRecord : Type := {
  Algorithm : Z;
  DigestType : Z;
  Digest : string
}.

(** Modelled from the spec: the declaration of [tc.DNSSECKey] is not among
    the sources; the fields are those of the specification's
    DNSSECKeyRecord (inception, expiration, ttl-seconds, name, status,
    public, private, ds-record), under the names the code uses for the
    three it assigns ([Status], [TTLSeconds], [ExpirationDateUnix]). *)
Record DNSSECKey : Type := {
  InceptionDateUnix : Z;
  ExpirationDateUnix : Z;
  Name : string;
  TTLSeconds : Z;
  Status : string;
  Public : string;
  Private : string;
  DSRecord : option DNSSECKeyDSRecord
}.

(** Modelled from the spec: [tc.DNSSECKeySet] is not among the sources.
    The code builds it positionally as [{oldKeyCDN.ZSK, oldKeyCDN.KSK}],
    so the ZSK list is the first field. *)
Record DNSSECKeySet : Type := {
  ZSK : list DNSSECKey;
  KSK : list DNSSECKey
}.

(** [tc.DNSSECKeys] is a Go map from zone name to key set. *)
Abbreviation DNSSECKeys := (gmap string DNSSECKeySet).

(** The zero value [tc.DNSSECKeySet{}] that a missing map key yields. *)
Definition DNSSECKeySet_zero : DNSSECKeySet := {| ZSK := []; KSK := [] |}.

Definition DNSSECStatusNew : string := "new".

(** Modelled from the spec: [tc.CDNDNSSECGenerateReq] is not among the
    sources.  The body is [{key, ttl, kskExpirationDays, zskExpirationDays,
    effectiveDateUnix?}]: after a successful [api.Parse] only the effective
    date may be nil. *)
Record CDNDNSSECGenerateReq : Type := {
  Key : string;
  TTL : Z;
  KSKExpirationDays : Z;
  ZSKExpirationDays : Z;
  EffectiveDateUnix : option Z
}.

(** Modelled from the spec: [tc.ApiErrorType] is not among the sources; of
    its values the code names [DataConflictError] and [SystemError]. *)
Inductive ApiErrorType : Type :=
| DataConflictError
| DataMissingError
| ForbiddenError
| SystemError.

End tc.

(** ** Package database/sql, as far as the code uses it *)
Module sql.
Import golang.

(** A row of the join that [getCDNDeliveryServices] issues. *)
Record CDNDSRow : Type := {
  xml_id : string;
  protocol : option Z;
  type_name : string;
  routing_name : string;
  cdn_domain : string
}.

(** An open transaction: its identity and what each statement the code
    issues through it yields.  [QueryRow(..).Scan(..)] yields
    [inl sql_ErrNoRows] when no row matches, another error when the query
    fails, and the scanned value otherwise. *)
Record Tx : Type := {
  id : nat;
  select_parameter_value : string -> string -> result string;
  select_ds_xml_id : Z -> result string;
  select_ds_xml_id_and_cdn : Z -> result (string * string);
  select_profile_name : Z -> result string;
  select_profile_id : string -> result Z;
  select_cdn_delivery_services : string -> result (list CDNDSRow)
}.

Inductive TxState : Type := Active | Committed | RolledBack.

#[global] Instance TxState_eq_dec : EqDecision TxState.
Proof. solve_decision. Defined.

(** The part of memory the handlers share with their deferred calls: the
    status of each transaction, and the bools that [*bool] pointers
    address. *)
Record Heap : Type := {
  txs : gmap nat TxState;
  bools : gmap nat bool
}.

Definition finish (s : TxState) (tx : Tx) (h : Heap) : Heap :=
  match txs h !! id tx with
  | Some Active => {| txs := <[id tx := s]> (txs h); bools := bools h |}
  | _ => h
  end.

(** [tx.Commit()]; on a transaction that is already done it returns
    [ErrTxDone], which the callers drop. *)
Definition Commit : Tx -> Heap -> Heap := finish Committed.

(** [tx.Rollback()] *)
Definition Rollback : Tx -> Heap -> Heap := finish RolledBack.

(** [rows.Scan(dest...)]: every destination must be a pointer.  The list
    says, per destination, whether the call passes an address; the scan
    fails at the first one that does not. *)
Definition Scan (pointers : list bool) : option error :=
  match list_find (fun p => p = false) pointers with
  | Some (i, _) =>
      Some (errors_New ("sql: Scan error on column index " +:+ pretty i
                        +:+ ": destination not a pointer"))
  | None => None
  end.

End sql.

(** ** Package sqlx: [sqlx.Tx] embeds a [*sql.Tx] *)
Module sqlx.

Record Tx : Type := { Tx_ : sql.Tx }.

End sqlx.

(** ** Package strings, as far as the code uses it (strings are byte
    sequences; the separators and cut sets of the code are ASCII) *)
Module gostrings.

(** [strings.HasPrefix(s, prefix)] *)
Definition HasPrefix (s prefix : string) : bool := String.prefix prefix s.

(** [s[n:]], for [n] within the string *)
Fixpoint drop (n : nat) (s : string) : string :=
  match n, s with
  | O, _ => s
  | S n', String _ s' => drop n' s'
  | S _, EmptyString => EmptyString
  end.

(** [strings.TrimPrefix(s, prefix)] *)
Definition TrimPrefix (s prefix : string) : string :=
  if HasPrefix s prefix then drop (String.length prefix) s else s.

(** [strings.HasSuffix(s, suffix)]: some tail of [s] is [suffix]. *)
Fixpoint HasSuffix (s suffix : string) : bool :=
  String.eqb s suffix
  || match s with
     | EmptyString => false
     | String _ s' => HasSuffix s' suffix
     end.

(** [strings.TrimSuffix(s, suffix)] *)
Definition TrimSuffix (s suffix : string) : string :=
  if HasSuffix s suffix then
    String.substring 0 (String.length s - String.length suffix) s
  else s.

(** Whether the byte [c] occurs in [cutset]. *)
Fixpoint inCutset (c : Ascii.ascii) (cutset : string) : bool :=
  match cutset with
  | EmptyString => false
  | String d cutset' => Ascii.eqb c d || inCutset c cutset'
  end.

(** [strings.TrimLeft(s, cutset)] *)
Fixpoint TrimLeft (s cutset : string) : string :=
  match s with
  | EmptyString => EmptyString
  | String c s' => if inCutset c cutset then TrimLeft s' cutset else s
  end.

(** [strings.TrimRight(s, cutset)] *)
Fixpoint TrimRight (s cutset : string) : string :=
  match s with
  | EmptyString => EmptyString
  | String c s' =>
      match TrimRight s' cutset with
      | EmptyString => if inCutset c cutset then EmptyString else String c EmptyString
      | String d r => String c (String d r)
      end
  end.

(** [strings.Trim(s, cutset)] *)
Definition Trim (s cutset : string) : string :=
  TrimRight (TrimLeft s cutset) cutset.

(** [strings.Split(s, sep)] for a non-empty [sep]: the pieces between the
    non-overlapping occurrences of [sep], found from the left.  [skip]
    counts the bytes of an occurrence still to pass over. *)
Fixpoint SplitFrom (sep : string) (skip : nat) (s : string) : list string :=
  match s with
  | EmptyString => [EmptyString]
  | String c s' =>
      match skip with
      | S skip' => SplitFrom sep skip' s'
      | O =>
          if String.prefix sep s then
            EmptyString :: SplitFrom sep (String.length sep - 1) s'
          else
            match SplitFrom sep 0 s' with
            | piece :: pieces => String c piece :: pieces
            | [] => [String c EmptyString]
            end
      end
  end.

Definition Split (s sep : string) : list string := SplitFrom sep 0 s.

(** [strings.Join(elems, sep)] *)
Fixpoint Join (elems : list string) (sep : string) : string :=
  match elems with
  | [] => EmptyString
  | [e] => e
  | e :: elems' => e +:+ sep +:+ Join elems' sep
  end.

End gostrings.

(** ** Package pq: the fields of [pq.Error] that the code reads *)
Module pq.

Record Error : Type := {
  Constraint : string;
  Detail : string
}.

End pq.

(** ** Package dbhelpers *)
Module dbhelpers.
Import golang.

(** [FinishTx(tx *sql.Tx, commit *bool)].  [tx] and [commit] are pointers:
    [None] is nil.  The result is [None] when [*commit] dereferences nil
    (a panic). *)
Definition FinishTx (tx : option sql.Tx) (commit : option nat) (h : sql.Heap)
  : option sql.Heap :=
  match tx with
  | None => Some h
  | Some tx =>
      match commit ≫= (fun p => sql.bools h !! p) with
      | None => None
      | Some c =>
          if negb c then Some (sql.Rollback tx h)
          else Some (sql.Commit tx h)
      end
  end.

(** [FinishTxX(tx *sqlx.Tx, commit *bool)] *)
Definition FinishTxX (tx : option sqlx.Tx) (commit : option nat) (h : sql.Heap)
  : option sql.Heap :=
  match tx with
  | None => Some h
  | Some tx =>
      match commit ≫= (fun p => sql.bools h !! p) with
      | None => None
      | Some c =>
          if negb c then Some (sql.Rollback (sqlx.Tx_ tx) h)
          else Some (sql.Commit (sqlx.Tx_ tx) h)
      end
  end.

(** The single-row readers return [(value, found, error)]. *)

Definition GetParam (tx : sql.Tx) (name configFile : string)
  : string * bool * option error :=
  match sql.select_parameter_value tx name configFile with
  | inl err =>
      if decide (err = sql_ErrNoRows) then ("", false, None)
      else ("", false,
            Some (errors_New ("Error querying global paramter '" +:+ name
                              +:+ "': " +:+ Error err)))
  | inr val => (val, true, None)
  end.

Definition GetGlobalParam (tx : sql.Tx) (name : string)
  : string * bool * option error :=
  GetParam tx name "global".

Definition GetDSNameFromID (tx : sql.Tx) (id : Z)
  : string * bool * option error :=
  match sql.select_ds_xml_id tx id with
  | inl err =>
      if decide (err = sql_ErrNoRows) then ("", false, None)
      else ("", false,
            Some (errors_New ("querying delivery service name: " +:+ Error err)))
  | inr name => (name, true, None)
  end.

Definition GetDSNameAndCDNFromID (tx : sql.Tx) (id : Z)
  : string * string * bool * option error :=
  match sql.select_ds_xml_id_and_cdn tx id with
  | inl err =>
      if decide (err = sql_ErrNoRows) then ("", "", false, None)
      else ("", "", false,
            Some (errors_New ("querying delivery service name: " +:+ Error err)))
  | inr (name, cdn) => (name, cdn, true, None)
  end.

Definition GetProfileNameFromID (id : Z) (tx : sql.Tx)
  : string * bool * option error :=
  match sql.select_profile_name tx id with
  | inl err =>
      if decide (err = sql_ErrNoRows) then ("", false, None)
      else ("", false,
            Some (errors_New ("querying profile name from id: " +:+ Error err)))
  | inr name => (name, true, None)
  end.

Definition GetProfileIDFromName (name : string) (tx : sql.Tx)
  : Z * bool * option error :=
  match sql.select_profile_id tx name with
  | inl err =>
      if decide (err = sql_ErrNoRows) then (0%Z, false, None)
      else (0%Z, false,
            Some (errors_New ("querying profile id from name: " +:+ Error err)))
  | inr id => (id, true, None)
  end.

(** *** WHERE and ORDER BY clauses *)

(** A column a query parameter maps to; [Checker] is a func that may be
    nil ([None]). *)
Record WhereColumnInfo : Type := {
  Column : string;
  Checker : option (string -> option error)
}.

(** The line feed that opens both clauses. *)
Definition newline : Ascii.ascii :=
  Ascii.Ascii false true false true false false false false.

Definition BaseWhere : string := String newline "WHERE".
Definition BaseOrderBy : string := String newline "ORDER BY".

(** What a [map[string]interface{}] of query values holds: the string of a
    query parameter, or the [pq.Array] of tenant ids. *)
Inductive QueryValue : Type :=
| StringValue (s : string)
| Int64Array (ids : list Z).

(** The state of the loop of [parseCriteriaAndQueryValues]. *)
Definition parseState : Type :=
  list string * gmap string QueryValue * list error.

(** One turn of [for key, colInfo := range queryParamsToSQLCols]. *)
Definition parseStep (queryParamsToSQLCols : gmap string WhereColumnInfo)
    (parameters : gmap string string) (st : parseState) (key : string)
  : parseState :=
  let '(criteriaArgs, queryValues, errs) := st in
  match queryParamsToSQLCols !! key with
  | None => st
  | Some colInfo =>
      match parameters !! key with
      | Some urlValue =>
          let err :=
            match Checker colInfo with
            | Some checker => checker urlValue
            | None => None
            end in
          match err with
          | Some err => (criteriaArgs, queryValues,
                         errs ++ [errors_New (key +:+ " " +:+ Error err)])
          | None => (criteriaArgs ++ [Column colInfo +:+ "=:" +:+ key],
                     <[key := StringValue urlValue]> queryValues, errs)
          end
      | None => st
      end
  end.

(** [parseCriteriaAndQueryValues].  Go visits the keys of a map in an
    order it does not specify: [order] is the order of this run, a listing
    of the keys of [queryParamsToSQLCols]. *)
Definition parseCriteriaAndQueryValues (order : list string)
    (queryParamsToSQLCols : gmap string WhereColumnInfo)
    (parameters : gmap string string)
  : string * gmap string QueryValue * list error :=
  let '(criteriaArgs, queryValues, errs) :=
    foldl (parseStep queryParamsToSQLCols parameters) ([], ∅, []) order in
  (gostrings.Join criteriaArgs " AND ", queryValues, errs).

(** [BuildWhereAndOrderBy] ([log.Debugln] only logs and is left out). *)
Definition BuildWhereAndOrderBy (order : list string)
    (parameters : gmap string string)
    (queryParamsToSQLCols : gmap string WhereColumnInfo)
  : string * string * gmap string QueryValue * list error :=
  let whereClause := BaseWhere in
  let orderBy := BaseOrderBy in
  let '(criteria, queryValues, errs) :=
    parseCriteriaAndQueryValues order queryParamsToSQLCols parameters in
  let whereClause :=
    if bool_decide (0 < size queryValues)%nat then whereClause +:+ " " +:+ criteria
    else whereClause in
  if bool_decide (0 < length errs)%nat then ("", "", queryValues, errs)
  else
    let orderBy :=
      match parameters !! "orderby" with
      | Some orderby =>
          match queryParamsToSQLCols !! orderby with
          | Some colInfo => orderBy +:+ " " +:+ Column colInfo
          | None => orderBy
          end
      | None => orderBy
      end in
    let whereClause := if String.eqb whereClause BaseWhere then "" else whereClause in
    let orderBy := if String.eqb orderBy BaseOrderBy then "" else orderBy in
    (whereClause, orderBy, queryValues, errs).

(** [ParsePQUniqueConstraintError]; [DBError] is [tc.DBError], whose
    declaration is not among the sources ([log.Error.Printf] only logs). *)
Definition ParsePQUniqueConstraintError (DBError : error) (err : pq.Error)
  : error * tc.ApiErrorType :=
  let fallback := (DBError, tc.SystemError) in
  if bool_decide (0 < String.length (pq.Constraint err))%nat
     && bool_decide (0 < String.length (pq.Detail err))%nat then
    let detail := pq.Detail err in
    if gostrings.HasPrefix detail "Key "
       && gostrings.HasSuffix detail " already exists." then
      let detail := gostrings.TrimPrefix detail "Key " in
      let detail := gostrings.TrimSuffix detail " already exists." in
      match gostrings.Split detail "=" with
      | [details0; details1] =>
          let column := gostrings.Trim details0 "()" in
          let dupValue := gostrings.Trim details1 "()" in
          (errors_New (column +:+ " " +:+ dupValue +:+ " already exists."),
           tc.DataConflictError)
      | _ => fallback
      end
    else fallback
  else fallback.

(** [AddTenancyCheck].  The Go map [queryValues] is updated in place and
    returned: the result is the caller's map after the call. *)
Definition AddTenancyCheck (where_ : string) (queryValues : gmap string QueryValue)
    (tenantColumnName : string) (tenantIDs : list Z)
  : string * gmap string QueryValue :=
  let where_ :=
    if String.eqb where_ "" then
      BaseWhere +:+ " " +:+ tenantColumnName
      +:+ " = ANY(CAST(:accessibleTenants AS bigint[]))"
    else
      where_ +:+ " AND " +:+ tenantColumnName
      +:+ " = ANY(CAST(:accessibleTenants AS bigint[]))" in
  (where_, <["accessibleTenants" := Int64Array tenantIDs]> queryValues).

(** *** What the loop makes of one query parameter *)

(** The error of the column's checker on a value; a nil checker accepts. *)
Definition check (colInfo : WhereColumnInfo) (urlValue : string) : option error :=
  match Checker colInfo with
  | Some checker => checker urlValue
  | None => None
  end.

(** The criterion that [key] adds to the WHERE clause: it has a column,
    the request gives it a value, and the checker accepts the value. *)
Definition criterionOf (queryParamsToSQLCols : gmap string WhereColumnInfo)
    (parameters : gmap string string) (key : string) : option string :=
  colInfo ← queryParamsToSQLCols !! key;
  urlValue ← parameters !! key;
  match check colInfo urlValue with
  | None => Some (Column colInfo +:+ "=:" +:+ key)
  | Some _ => None
  end.

(** The error that [key] adds: the checker refuses its value. *)
Definition rejectionOf (queryParamsToSQLCols : gmap string WhereColumnInfo)
    (parameters : gmap string string) (key : string) : option error :=
  colInfo ← queryParamsToSQLCols !! key;
  urlValue ← parameters !! key;
  match check colInfo urlValue with
  | None => None
  | Some err => Some (errors_New (key +:+ " " +:+ Error err))
  end.

(** The query values after the turn of [key]: its value is bound when it
    adds a criterion. *)
Definition bindValue (queryParamsToSQLCols : gmap string WhereColumnInfo)
    (parameters : gmap string string) (queryValues : gmap string QueryValue)
    (key : string) : gmap string QueryValue :=
  match criterionOf queryParamsToSQLCols parameters key, parameters !! key with
  | Some _, Some urlValue => <[key := StringValue urlValue]> queryValues
  | _, _ => queryValues
  end.

(** The predicate [AddTenancyCheck] adds for a tenant column. *)
Definition tenancyFilter (tenantColumnName : string) : string :=
  tenantColumnName +:+ " = ANY(CAST(:accessibleTenants AS bigint[]))".

End dbhelpers.

(** ** Package config *)
Module config.

Record Config : Type := {
  RiakAuthOptions : option (string * string)
}.

End config.

(** ** Package riaksvc: the key store *)
Module riaksvc.
Import golang.

(** Modelled from the spec: package riaksvc is not among the sources.  The
    KeyStore of the specification holds one whole bundle per CDN under
    (bucket dnssec, key = CDN name); [get] is a read, [put] replaces the
    whole bundle, [delete] succeeds on an absent key.  A call fails only
    when the cluster does (StoreUnavailable): [faults] scripts the outcome
    of the coming cluster calls, in order, [None] for a call that is
    served and [Some e] for one that fails with [e]; once the script is
    used up every call is served. *)
Record Cluster : Type := {
  objects : gmap (string * string) tc.DNSSECKeys;
  faults : list (option error)
}.

Definition DNSSECKeysBucket : string := "dnssec".

(** Modelled from the spec: one exchange with the cluster; it consumes the
    head of the fault script and touches no object. *)
Definition call (c : Cluster) : option error * Cluster :=
  match faults c with
  | [] => (None, c)
  | f :: fs => (f, {| objects := objects c; faults := fs |})
  end.

(** Modelled from the spec: [get(cdnName) -> (bundle, found, error)]. *)
Definition GetDNSSECKeys (cdnName : string) (tx : sql.Tx)
    (authOptions : option (string * string)) (c : Cluster)
  : result (tc.DNSSECKeys * bool) * Cluster :=
  match call c with
  | (Some err, c') => (inl err, c')
  | (None, c') =>
      match objects c' !! (DNSSECKeysBucket, cdnName) with
      | Some keys => (inr (keys, true), c')
      | None => (inr (∅, false), c')
      end
  end.

(** Modelled from the spec: [put(cdnName, bundle) -> error]; whole-bundle
    write, nothing is written when the call fails. *)
Definition PutDNSSECKeys (keys : tc.DNSSECKeys) (cdnName : string) (tx : sql.Tx)
    (authOptions : option (string * string)) (c : Cluster)
  : option error * Cluster :=
  match call c with
  | (Some err, c') => (Some err, c')
  | (None, c') =>
      (None, {| objects := <[(DNSSECKeysBucket, cdnName) := keys]> (objects c');
                faults := faults c' |})
  end.

(** Modelled from the spec: acquiring the cluster session. *)
Definition GetRiakClusterTx (tx : sql.Tx) (authOptions : option (string * string))
    (c : Cluster) : option error * Cluster :=
  call c.

(** Modelled from the spec: [riakCluster.Start()]. *)
Definition Start (c : Cluster) : option error * Cluster := call c.

(** Modelled from the spec: releasing the session. *)
Definition StopCluster (c : Cluster) : Cluster := c.

(** Modelled from the spec: [delete(cdnName) -> error], idempotent: an
    absent key is not an error. *)
Definition DeleteObject (key bucket : string) (c : Cluster)
  : option error * Cluster :=
  match call c with
  | (Some err, c') => (Some err, c')
  | (None, c') =>
      (None, {| objects := delete (bucket, key) (objects c');
                faults := faults c' |})
  end.

End riaksvc.

(** ** Package deliveryservice and the [tc.DSType] operations *)
Module deliveryservice.
Import golang.

(** Modelled from the spec: a match list is an ordered sequence of
    (match-type, pattern). *)
Record MatchListEntry : Type := {
  MatchType : string;
  Regex : string
}.

Abbreviation MatchList := (list MatchListEntry).

(** The functions of packages tc and deliveryservice that the rotation
    calls and that are not among the sources are taken as parameters.
    [KeyGen] is whatever the key factory draws on (entropy, the clock):
    [CreateDNSSECKeys] reads and advances it and touches nothing else. *)
Class Collaborators : Type := {
  DSType : Type;
  DSType_eq_dec : EqDecision DSType;
  DSTypeInvalid : DSType;
  DSTypeFromString : string -> DSType;
  IsHTTP : DSType -> bool;
  IsDNS : DSType -> bool;
  KeyGen : Type;
  GetDeliveryServicesMatchLists :
    list string -> sql.Tx -> result (gmap string MatchList);
  MakeExampleURLs :
    option Z -> DSType -> string -> MatchList -> string -> list string;
  CreateDNSSECKeys :
    sql.Tx -> config.Config -> string -> list string -> tc.DNSSECKeySet ->
    Z -> Z -> Z -> bool -> KeyGen -> result tc.DNSSECKeySet * KeyGen
}.

#[global] Existing Instance DSType_eq_dec.

End deliveryservice.

(** ** Package api: what the handlers use of it *)
Module api.
Import golang.

(** Modelled from the spec: [api.APIInfo] is not among the sources.  The
    handler works inside a DB transaction whose commit is gated on the
    bool that [CommitTx] points to. *)
Record APIInfo : Type := {
  Params : gmap string string;
  Tx : sqlx.Tx;
  CommitTx : nat;
  Config : config.Config;
  User : string
}.

(** What [api.NewInfo] returns: [(inf, userErr, sysErr, errCode)]. *)
Definition NewInfoResult : Type :=
  option APIInfo * option error * option error * Z.

(** Modelled from the spec: [inf.Close()] is the handler's scoped release
    of the transaction: it finishes it according to the commit flag. *)
Definition Close (inf : APIInfo) (h : sql.Heap) : option sql.Heap :=
  dbhelpers.FinishTxX (Some (Tx inf)) (Some (CommitTx inf)) h.

(** The reply of a handler is the call it makes to write it. *)
Inductive Reply : Type :=
| HandleErr (errCode : Z) (userErr sysErr : option error)
| WriteResp (v : string).

Definition StatusOK : Z := 200.
Definition StatusBadRequest : Z := 400.
Definition StatusInternalServerError : Z := 500.

(** Modelled from the spec: [api.WriteResp] answers 200, [api.HandleErr]
    answers the code it is given. *)
Definition statusCode (r : Reply) : Z :=
  match r with
  | HandleErr errCode _ _ => errCode
  | WriteResp _ => StatusOK
  end.

End api.

(** ** Package cdn: the DNSSEC key handlers *)
Module cdn.
Import golang.

Definition CDNDNSSECKeyType : string := "dnssec".
Definition DNSSECStatusExisting : string := "existing".

Section WithCollaborators.
Context `{C : deliveryservice.Collaborators}.

Record CDNDS : Type := {
  Name : string;
  Protocol : option Z;
  Type_ : deliveryservice.DSType;
  RoutingName : string
}.

(** The world outside the handlers. *)
Record World : Type := {
  heap : sql.Heap;
  riak : riaksvc.Cluster;
  keygen : deliveryservice.KeyGen;
  changelog : list (string * string)
}.

Definition set_heap (h : sql.Heap) (w : World) : World :=
  {| heap := h; riak := riak w; keygen := keygen w; changelog := changelog w |}.

Definition set_riak (c : riaksvc.Cluster) (w : World) : World :=
  {| heap := heap w; riak := c; keygen := keygen w; changelog := changelog w |}.

Definition set_keygen (g : deliveryservice.KeyGen) (w : World) : World :=
  {| heap := heap w; riak := riak w; keygen := g; changelog := changelog w |}.

(** [*p = b] *)
Definition store_bool (p : nat) (b : bool) (w : World) : World :=
  set_heap {| sql.txs := sql.txs (heap w);
              sql.bools := <[p := b]> (sql.bools (heap w)) |} w.

(** Modelled from the spec: [api.CreateChangeLogRawTx] appends an entry to
    the audit log. *)
Definition CreateChangeLogRawTx (msg user : string) (w : World) : World :=
  {| heap := heap w; riak := riak w; keygen := keygen w;
     changelog := changelog w ++ [(msg, user)] |}.

(** Calls that may fail and that act on the world. *)
Definition M (A : Type) : Type := World -> result A * World.

Definition ret {A} (a : A) : M A := fun w => (inr a, w).

Definition fail {A} (e : error) : M A := fun w => (inl e, w).

Definition bind {A B} (m : M A) (k : A -> M B) : M B :=
  fun w =>
    match m w with
    | (inl e, w') => (inl e, w')
    | (inr a, w') => k a w'
    end.

(** [if err != nil { return errors.New(ctx + err.Error()) }] *)
Definition wrap {A} (ctx : string) (m : M A) : M A :=
  fun w =>
    match m w with
    | (inl e, w') => (inl (errors_New (ctx +:+ Error e)), w')
    | (inr a, w') => (inr a, w')
    end.

Definition on_riak {A} (op : riaksvc.Cluster -> result A * riaksvc.Cluster) : M A :=
  fun w => let (r, c) := op (riak w) in (r, set_riak c w).

Definition on_keygen {A}
    (op : deliveryservice.KeyGen -> result A * deliveryservice.KeyGen) : M A :=
  fun w => let (r, g) := op (keygen w) in (r, set_keygen g w).

Definition pure_call {A} (r : result A) : M A := fun w => (r, w).

(** A call that returns only an [error]. *)
Definition as_result (op : riaksvc.Cluster -> option error * riaksvc.Cluster)
  : riaksvc.Cluster -> result unit * riaksvc.Cluster :=
  fun c =>
    match op c with
    | (Some e, c') => (inl e, c')
    | (None, c') => (inr tt, c')
    end.

Notation "x <~ m ;; k" := (bind m (fun x => k))
  (at level 100, m at next level, right associativity).

(** The loop of [getCDNDeliveryServices] over the rows.  The call is
    [rows.Scan(&ds.Name, &ds.Protocol, dsTypeStr, &ds.RoutingName,
    &cdnDomain)]: the third destination is the string itself, not its
    address, so [dsTypeStr] would still be empty after the scan. *)
Fixpoint scanCDNDSRows (rows : list sql.CDNDSRow) (dses : list CDNDS)
    (cdnDomain : string) : result (list CDNDS * string) :=
  match rows with
  | [] => inr (dses, cdnDomain)
  | row :: rows' =>
      let dsTypeStr := "" in
      match sql.Scan [true; true; false; true; true] with
      | Some err =>
          inl (errors_New ("scanning cdn delivery services: " +:+ Error err))
      | None =>
          let dsType := deliveryservice.DSTypeFromString dsTypeStr in
          if decide (dsType = deliveryservice.DSTypeInvalid) then
            inl (errors_New ("got invalid delivery service type '" +:+ dsTypeStr
                             +:+ "'"))
          else
            scanCDNDSRows rows'
              (dses ++ [{| Name := sql.xml_id row;
                           Protocol := sql.protocol row;
                           Type_ := dsType;
                           RoutingName := sql.routing_name row |}])
              (sql.cdn_domain row)
      end
  end.

Definition getCDNDeliveryServices (tx : sql.Tx) (cdn : string)
  : result (list CDNDS * string) :=
  match sql.select_cdn_delivery_services tx cdn with
  | inl err => inl (errors_New ("getting cdn delivery services: " +:+ Error err))
  | inr rows => scanCDNDSRows rows [] ""
  end.

(** Lines 88-91: the copy of the head key, demoted. *)
Definition demote (ttl effectiveDateUnix : Z) (key : tc.DNSSECKey) : tc.DNSSECKey :=
  {| tc.InceptionDateUnix := tc.InceptionDateUnix key;
     tc.ExpirationDateUnix := effectiveDateUnix;
     tc.Name := tc.Name key;
     tc.TTLSeconds := uint64 (time.div ttl time.Second);
     tc.Status := DNSSECStatusExisting;
     tc.Public := tc.Public key;
     tc.Private := tc.Private key;
     tc.DSRecord := tc.DSRecord key |}.

(** Lines 87-93 (and 94-100): [if oldKeyCDNExists && len(keys) > 0] append
    the demoted copy of [keys[0]]. *)
Definition appendDemotedHead (oldKeyCDNExists : bool) (ttl effectiveDateUnix : Z)
    (keys : list tc.DNSSECKey) : list tc.DNSSECKey :=
  if oldKeyCDNExists && bool_decide (0 < length keys)%nat then
    match keys !! 0 with
    | Some key => keys ++ [demote ttl effectiveDateUnix key]
    | None => keys
    end
  else keys.

(** Lines 86-101: the key set stored at [newKeys[cdnName]]. *)
Definition demoteCDNKeys (oldKeys : tc.DNSSECKeys) (cdnName : string)
    (ttl effectiveDateUnix : Z) : tc.DNSSECKeySet :=
  let oldKeyCDN := default tc.DNSSECKeySet_zero (oldKeys !! cdnName) in
  let oldKeyCDNExists := bool_decide (is_Some (oldKeys !! cdnName)) in
  let ksks := appendDemotedHead oldKeyCDNExists ttl effectiveDateUnix (tc.KSK oldKeyCDN) in
  let zsks := appendDemotedHead oldKeyCDNExists ttl effectiveDateUnix (tc.ZSK oldKeyCDN) in
  {| tc.ZSK := zsks; tc.KSK := ksks |}.

Definition eligible (ds : CDNDS) : bool :=
  negb (negb (deliveryservice.IsHTTP (Type_ ds))
        && negb (deliveryservice.IsDNS (Type_ ds))).

(** Lines 119-137: the loop over the delivery services ([log.Infoln] only
    logs and is left out). *)
Fixpoint createDSKeys (tx : sql.Tx) (cfg : config.Config)
    (matchLists : gmap string deliveryservice.MatchList) (cdnDomain : string)
    (cdnKeys : tc.DNSSECKeySet) (kExp zExp ttl : Z)
    (dses : list CDNDS) (newKeys : tc.DNSSECKeys) : M tc.DNSSECKeys :=
  match dses with
  | [] => ret newKeys
  | ds :: dses' =>
      if negb (deliveryservice.IsHTTP (Type_ ds))
         && negb (deliveryservice.IsDNS (Type_ ds)) then
        createDSKeys tx cfg matchLists cdnDomain cdnKeys kExp zExp ttl dses' newKeys
      else
        match matchLists !! Name ds with
        | None =>
            fail (errors_New ("no regex match list found for delivery service '"
                              +:+ Name ds))
        | Some matchlist =>
            let exampleURLs :=
              deliveryservice.MakeExampleURLs (Protocol ds) (Type_ ds)
                (RoutingName ds) matchlist cdnDomain in
            let overrideTTL := true in
            dsKeys <~ wrap "creating delivery service DNSSEC keys: "
                        (on_keygen (deliveryservice.CreateDNSSECKeys tx cfg (Name ds)
                                      exampleURLs cdnKeys kExp zExp ttl overrideTTL)) ;;
            createDSKeys tx cfg matchLists cdnDomain cdnKeys kExp zExp ttl dses'
              (<[Name ds := dsKeys]> newKeys)
        end
  end.

(** The rotation, over the reader of the CDN's delivery services. *)
Definition rotate
    (listCDNDeliveryServices : sql.Tx -> string -> result (list CDNDS * string))
    (tx : sql.Tx) (cfg : config.Config) (cdnName : string)
    (ttlSeconds kExpDays zExpDays effectiveDateUnix : Z) : M unit :=
  let zExp := time.mul (time.mul (time.Duration zExpDays) time.Hour) 24 in
  let kExp := time.mul (time.mul (time.Duration kExpDays) time.Hour) 24 in
  let ttl := time.mul (time.Duration ttlSeconds) time.Second in
  let newKeys : tc.DNSSECKeys := ∅ in
  old <~ wrap "getting old dnssec keys: "
           (on_riak (riaksvc.GetDNSSECKeys cdnName tx (config.RiakAuthOptions cfg))) ;;
  let '(oldKeys, oldKeysExist) := old in
  if oldKeysExist : bool then
    let newKeys := <[cdnName := demoteCDNKeys oldKeys cdnName ttl effectiveDateUnix]> newKeys in
    let cdnKeys := default tc.DNSSECKeySet_zero (newKeys !! cdnName) in
    listed <~ wrap "getting cdn delivery services: "
                (pure_call (listCDNDeliveryServices tx cdnName)) ;;
    let '(dses, cdnDomain) := listed in
    let dsNames := Name <$> dses in
    matchLists <~ wrap "getting delivery service matchlists: "
                    (pure_call (deliveryservice.GetDeliveryServicesMatchLists dsNames tx)) ;;
    newKeys <~ createDSKeys tx cfg matchLists cdnDomain cdnKeys kExp zExp ttl dses newKeys ;;
    wrap "putting Riak DNSSEC CDN keys: "
      (on_riak (as_result (riaksvc.PutDNSSECKeys newKeys cdnName tx
                             (config.RiakAuthOptions cfg))))
  else
    fail (errors_New "getting DNSSec keys from Riak: no DNSSec keys for CDN").

(** A function that returns only an [error]. *)
Definition returned_error (r : result unit * World) : option error * World :=
  match r with
  | (inl e, w) => (Some e, w)
  | (inr _, w) => (None, w)
  end.

Definition generateStoreDNSSECKeysFrom
    (listCDNDeliveryServices : sql.Tx -> string -> result (list CDNDS * string))
    (tx : sql.Tx) (cfg : config.Config) (cdnName : string)
    (ttlSeconds kExpDays zExpDays effectiveDateUnix : Z) (w : World)
  : option error * World :=
  returned_error
    (rotate listCDNDeliveryServices tx cfg cdnName ttlSeconds kExpDays zExpDays
       effectiveDateUnix w).

(** [generateStoreDNSSECKeys], with [getCDNDeliveryServices] as its reader. *)
Definition generateStoreDNSSECKeys : sql.Tx -> config.Config -> string ->
    Z -> Z -> Z -> Z -> World -> option error * World :=
  generateStoreDNSSECKeysFrom getCDNDeliveryServices.

(** A deferred [inf.Close()]: it runs when the handler returns, on the
    world the handler leaves.  [None] is a panic. *)
Definition deferred_Close (inf : api.APIInfo) (out : api.Reply * World)
  : option (api.Reply * World) :=
  h ← api.Close inf (heap out.2);
  Some (out.1, set_heap h out.2).

(** The handler [CreateDNSSECKeys].  [newInfo] is what [api.NewInfo]
    returns, [parsed] what [api.Parse] makes of the body, [now] is
    [time.Now().Unix()]. *)
Definition CreateDNSSECKeys (newInfo : api.NewInfoResult)
    (parsed : result tc.CDNDNSSECGenerateReq) (now : Z) (w : World)
  : option (api.Reply * World) :=
  let '(inf, userErr, sysErr, errCode) := newInfo in
  if bool_decide (userErr ≠ None) || bool_decide (sysErr ≠ None) then
    Some (api.HandleErr errCode userErr sysErr, w)
  else
    inf ← inf;
    deferred_Close inf
      match parsed with
      | inl err =>
          (api.HandleErr api.StatusBadRequest
             (Some (errors_New ("parsing request: " +:+ Error err))) None, w)
      | inr req =>
          let effectiveDateUnix := default now (tc.EffectiveDateUnix req) in
          let cdnName := tc.Key req in
          match generateStoreDNSSECKeys (sqlx.Tx_ (api.Tx inf)) (api.Config inf)
                  cdnName (tc.TTL req) (tc.KSKExpirationDays req)
                  (tc.ZSKExpirationDays req) effectiveDateUnix w with
          | (Some err, w') =>
              (api.HandleErr api.StatusInternalServerError None
                 (Some (errors_New ("generating and storing DNSSEC CDN keys: "
                                    +:+ Error err))), w')
          | (None, w') =>
              (api.WriteResp ("Successfully created dnssec keys for " +:+ cdnName),
               store_bool (api.CommitTx inf) true w')
          end
      end.

(** The handler [DeleteDNSSECKeys]. *)
Definition DeleteDNSSECKeys (newInfo : api.NewInfoResult) (w : World)
  : option (api.Reply * World) :=
  let '(inf, userErr, sysErr, errCode) := newInfo in
  if bool_decide (userErr ≠ None) || bool_decide (sysErr ≠ None) then
    Some (api.HandleErr errCode userErr sysErr, w)
  else
    inf ← inf;
    deferred_Close inf
      (let key := default "" (api.Params inf !! "name") in
       let tx := sqlx.Tx_ (api.Tx inf) in
       let auth := config.RiakAuthOptions (api.Config inf) in
       match riaksvc.GetRiakClusterTx tx auth (riak w) with
       | (Some err, c) =>
           (api.HandleErr api.StatusInternalServerError None
              (Some (errors_New ("getting riak cluster: " +:+ Error err))),
            set_riak c w)
       | (None, c) =>
           match riaksvc.Start c with
           | (Some err, c) =>
               (api.HandleErr api.StatusInternalServerError None
                  (Some (errors_New ("starting riak cluster: " +:+ Error err))),
                set_riak c w)
           | (None, c) =>
               match riaksvc.DeleteObject key CDNDNSSECKeyType c with
               | (Some err, c) =>
                   (api.HandleErr api.StatusInternalServerError None
                      (Some (errors_New ("deleting cdn dnssec keys: " +:+ Error err))),
                    set_riak (riaksvc.StopCluster c) w)
               | (None, c) =>
                   (api.WriteResp ("Successfully deleted " +:+ CDNDNSSECKeyType
                                   +:+ " for " +:+ key),
                    set_riak (riaksvc.StopCluster c)
                      (CreateChangeLogRawTx ("Deleted DNSSEC keys for CDN " +:+ key)
                         (api.User inf)
                         (store_bool (api.CommitTx inf) true w)))
               end
           end
       end).

(** The bundle the key store holds for a CDN. *)
Definition stored (w : World) (cdnName : string) : option tc.DNSSECKeys :=
  riaksvc.objects (riak w) !! (riaksvc.DNSSECKeysBucket, cdnName).

(** The record at index 0 of a key list exists and has status new. *)
Definition headIsNew (keys : list tc.DNSSECKey) : bool :=
  match keys !! 0 with
  | Some key => bool_decide (tc.Status key = tc.DNSSECStatusNew)
  | None => false
  end.

(** A key set with at least one KSK and one ZSK whose heads are new. *)
Definition headsAreNew (ks : tc.DNSSECKeySet) : bool :=
  headIsNew (tc.KSK ks) && headIsNew (tc.ZSK ks).

End WithCollaborators.

End cdn.

(** ** Concrete collaborators and worlds, for evaluating the code *)
Module sample.
Import golang.

(** A database in which no statement matches a row. *)
Definition tx : sql.Tx :=
  {| sql.id := 1;
     sql.select_parameter_value := fun _ _ => inl sql_ErrNoRows;
     sql.select_ds_xml_id := fun _ => inl sql_ErrNoRows;
     sql.select_ds_xml_id_and_cdn := fun _ => inl sql_ErrNoRows;
     sql.select_profile_name := fun _ => inl sql_ErrNoRows;
     sql.select_profile_id := fun _ => inl sql_ErrNoRows;
     sql.select_cdn_delivery_services := fun _ => inr [] |}.

(** A database whose connection is lost: every statement fails. *)
Definition broken_tx : sql.Tx :=
  let lost := errors_New "driver: bad connection" in
  {| sql.id := 2;
     sql.select_parameter_value := fun _ _ => inl lost;
     sql.select_ds_xml_id := fun _ => inl lost;
     sql.select_ds_xml_id_and_cdn := fun _ => inl lost;
     sql.select_profile_name := fun _ => inl lost;
     sql.select_profile_id := fun _ => inl lost;
     sql.select_cdn_delivery_services := fun _ => inl lost |}.

(** Transaction 1 is open and the bool at address 7 is false. *)
Definition heap : sql.Heap :=
  {| sql.txs := {[ 1%nat := sql.Active ]}; sql.bools := {[ 7%nat := false ]} |}.

Definition cfg : config.Config := {| config.RiakAuthOptions := Some ("admin", "riakpass") |}.

(** A stand-in for the collaborators that are not among the sources, to run
    the rotation on examples: delivery service types are their names, with
    the HTTP and DNS families told by their prefix; the DB holds the given
    match lists; the key factory hands out the key pairs (public, private)
    it is left with and fails when fewer than two remain. *)
Definition minted (zone : string) (ttl : Z) (pair : string * string) : tc.DNSSECKey :=
  {| tc.InceptionDateUnix := 1700000000;
     tc.ExpirationDateUnix := 1731536000;
     tc.Name := zone;
     tc.TTLSeconds := golang.uint64 (time.div ttl time.Second);
     tc.Status := tc.DNSSECStatusNew;
     tc.Public := pair.1;
     tc.Private := pair.2;
     tc.DSRecord := None |}.

Definition collaborators (matchLists : gmap string deliveryservice.MatchList)
  : deliveryservice.Collaborators :=
  {| deliveryservice.DSType := string;
     deliveryservice.DSType_eq_dec := _;
     deliveryservice.DSTypeInvalid := "";
     deliveryservice.DSTypeFromString := fun s => s;
     deliveryservice.IsHTTP := fun t => String.prefix "HTTP" t;
     deliveryservice.IsDNS := fun t => String.prefix "DNS" t;
     deliveryservice.KeyGen := list (string * string);
     deliveryservice.GetDeliveryServicesMatchLists := fun _ _ => inr matchLists;
     deliveryservice.MakeExampleURLs := fun _ _ routingName matchlist cdnDomain =>
       (fun e => "http://" +:+ routingName +:+ deliveryservice.Regex e +:+ cdnDomain)
         <$> matchlist;
     deliveryservice.CreateDNSSECKeys := fun _ _ xmlID _ _ _ _ ttl _ pairs =>
       match pairs with
       | zsk :: ksk :: pairs' =>
           (inr {| tc.ZSK := [minted xmlID ttl zsk];
                   tc.KSK := [minted xmlID ttl ksk] |}, pairs')
       | _ => (inl (errors_New "generating keys: out of entropy"), pairs)
       end |}.

Definition host_regexp : deliveryservice.MatchList :=
  [ {| deliveryservice.MatchType := "HOST_REGEXP";
       deliveryservice.Regex := ".d." |} ].

(** Match lists for d1 and d2; and for d2 only. *)
Definition both_matchlists : gmap string deliveryservice.MatchList :=
  {[ "d1" := host_regexp; "d2" := host_regexp ]}.

Definition d2_matchlist : gmap string deliveryservice.MatchList :=
  {[ "d2" := host_regexp ]}.

Definition ds (matchLists : gmap string deliveryservice.MatchList)
    (xmlID type : string) : @cdn.CDNDS (collaborators matchLists) :=
  @cdn.Build_CDNDS (collaborators matchLists) xmlID (Some 0%Z) type "cdn".

(** A metadata reader that finds the given delivery services. *)
Definition reader (matchLists : gmap string deliveryservice.MatchList)
    (dses : list (@cdn.CDNDS (collaborators matchLists)))
  : sql.Tx -> string -> golang.result (list (@cdn.CDNDS (collaborators matchLists)) * string) :=
  fun _ _ => inr (dses, ".example.net").

Definition apex_key (status : string) : tc.DNSSECKey :=
  {| tc.InceptionDateUnix := 1600000000;
     tc.ExpirationDateUnix := 1631536000;
     tc.Name := "cdn-a.example.net.";
     tc.TTLSeconds := 60;
     tc.Status := status;
     tc.Public := "pub-apex";
     tc.Private := "priv-apex";
     tc.DSRecord := None |}.

(** The bundle of cdn-a with one KSK and one ZSK, both new. *)
Definition warm_bundle : tc.DNSSECKeys :=
  {[ "cdn-a" := {| tc.ZSK := [apex_key "new"]; tc.KSK := [apex_key "new"] |} ]}.

(** A bundle of cdn-a whose own key set holds no key. *)
Definition keyless_bundle : tc.DNSSECKeys :=
  {[ "cdn-a" := {| tc.ZSK := []; tc.KSK := [] |} ]}.

(** The world in which the key store holds the given objects and every
    cluster call is served. *)
Definition world (matchLists : gmap string deliveryservice.MatchList)
    (objects : gmap (string * string) tc.DNSSECKeys)
  : @cdn.World (collaborators matchLists) :=
  @cdn.Build_World (collaborators matchLists) heap
    {| riaksvc.objects := objects; riaksvc.faults := [] |}
    [ ("pub-1", "priv-1"); ("pub-2", "priv-2"); ("pub-3", "priv-3");
      ("pub-4", "priv-4") ] [].

Definition warm : gmap (string * string) tc.DNSSECKeys :=
  {[ ("dnssec", "cdn-a") := warm_bundle ]}.

Definition keyless : gmap (string * string) tc.DNSSECKeys :=
  {[ ("dnssec", "cdn-a") := keyless_bundle ]}.

(** The request context [api.NewInfo] hands to a handler. *)
Definition inf (name : string) : api.APIInfo :=
  {| api.Params := {[ "name" := name ]};
     api.Tx := {| sqlx.Tx_ := tx |};
     api.CommitTx := 7;
     api.Config := cfg;
     api.User := "admin" |}.

Definition req (ttl : Z) : tc.CDNDNSSECGenerateReq :=
  {| tc.Key := "cdn-a"; tc.TTL := ttl; tc.KSKExpirationDays := 365;
     tc.ZSKExpirationDays := 30; tc.EffectiveDateUnix := Some 1700000000%Z |}.

(** Three delivery services of cdn-a: d1 and d2 are eligible, d3 is not. *)
Definition dses : list (@cdn.CDNDS (collaborators both_matchlists)) :=
  [ ds both_matchlists "d1" "HTTP"; ds both_matchlists "d2" "DNS";
    ds both_matchlists "d3" "ANY_MAP" ].

(** The rotation of the warm bundle with these delivery services. *)
Definition warm_rotation :=
  cdn.generateStoreDNSSECKeysFrom (reader both_matchlists dses) tx cfg "cdn-a"
    3600 365 30 1700000000 (world both_matchlists warm).

(** Two eligible delivery services, of which d1 has no match list. *)
Definition unmatched : list (@cdn.CDNDS (collaborators d2_matchlist)) :=
  [ ds d2_matchlist "d2" "HTTP"; ds d2_matchlist "d1" "DNS" ].

(** A transaction that finds one delivery service on every CDN. *)
Definition tx_with_ds : sql.Tx :=
  {| sql.id := 1;
     sql.select_parameter_value := fun _ _ => inl sql_ErrNoRows;
     sql.select_ds_xml_id := fun _ => inl sql_ErrNoRows;
     sql.select_ds_xml_id_and_cdn := fun _ => inl sql_ErrNoRows;
     sql.select_profile_name := fun _ => inl sql_ErrNoRows;
     sql.select_profile_id := fun _ => inl sql_ErrNoRows;
     sql.select_cdn_delivery_services := fun _ =>
       inr [ {| sql.xml_id := "d1"; sql.protocol := Some 0%Z;
                sql.type_name := "HTTP"; sql.routing_name := "cdn";
                sql.cdn_domain := "example.net" |} ] |}.

(** A transaction that finds one delivery service on every CDN, of a type
    that is neither HTTP nor DNS. *)
Definition tx_with_any_map : sql.Tx :=
  {| sql.id := 1;
     sql.select_parameter_value := fun _ _ => inl sql_ErrNoRows;
     sql.select_ds_xml_id := fun _ => inl sql_ErrNoRows;
     sql.select_ds_xml_id_and_cdn := fun _ => inl sql_ErrNoRows;
     sql.select_profile_name := fun _ => inl sql_ErrNoRows;
     sql.select_profile_id := fun _ => inl sql_ErrNoRows;
     sql.select_cdn_delivery_services := fun _ =>
       inr [ {| sql.xml_id := "d3"; sql.protocol := Some 0%Z;
                sql.type_name := "ANY_MAP"; sql.routing_name := "cdn";
                sql.cdn_domain := "example.net" |} ] |}.

(** A checker that refuses the empty string. *)
Definition notBlank (s : string) : option error :=
  if String.eqb s "" then Some (errors_New "cannot be blank") else None.

(** The columns two query parameters map to, and the order of one visit
    of that map. *)
Definition cols : gmap string dbhelpers.WhereColumnInfo :=
  {[ "xmlId" := {| dbhelpers.Column := "ds.xml_id"; dbhelpers.Checker := None |};
     "cdn" := {| dbhelpers.Column := "cdn.name";
                 dbhelpers.Checker := Some notBlank |} ]}.

Definition order : list string := ["cdn"; "xmlId"].

(** Requests: two that differ in their values only, and one whose cdn is
    blank. *)
Definition params (xmlId cdnName : string) : gmap string string :=
  {[ "xmlId" := xmlId; "cdn" := cdnName; "orderby" := "xmlId" ]}.

Definition blank_params : gmap string string := {[ "cdn" := "" ]}.

End sample.

(** * Properties *)

(** ** dbhelpers: the single-row readers *)
Section Readers.
Import golang.

(** C9: each single-row reader ([GetParam], [GetDSNameFromID],
    [GetDSNameAndCDNFromID], [GetProfileNameFromID], [GetProfileIDFromName])
    answers a query that matches no row with found = false and a nil
    error, and returns a non-nil error only when the query failed with an
    error other than [sql.ErrNoRows]. *)
Theorem missing_row_is_not_an_error (tx : sql.Tx) (name configFile : string) (id : Z) :
  (sql.select_parameter_value tx name configFile = inl sql_ErrNoRows ->
   dbhelpers.GetParam tx name configFile = ("", false, None))
  /\ (sql.select_ds_xml_id tx id = inl sql_ErrNoRows ->
      dbhelpers.GetDSNameFromID tx id = ("", false, None))
  /\ (sql.select_ds_xml_id_and_cdn tx id = inl sql_ErrNoRows ->
      dbhelpers.GetDSNameAndCDNFromID tx id = ("", "", false, None))
  /\ (sql.select_profile_name tx id = inl sql_ErrNoRows ->
      dbhelpers.GetProfileNameFromID id tx = ("", false, None))
  /\ (sql.select_profile_id tx name = inl sql_ErrNoRows ->
      dbhelpers.GetProfileIDFromName name tx = (0%Z, false, None))
  /\ (forall e, (dbhelpers.GetParam tx name configFile).2 = Some e ->
      exists err, sql.select_parameter_value tx name configFile = inl err
                  /\ err <> sql_ErrNoRows)
  /\ (forall e, (dbhelpers.GetDSNameFromID tx id).2 = Some e ->
      exists err, sql.select_ds_xml_id tx id = inl err /\ err <> sql_ErrNoRows)
  /\ (forall e, (dbhelpers.GetDSNameAndCDNFromID tx id).2 = Some e ->
      exists err, sql.select_ds_xml_id_and_cdn tx id = inl err
                  /\ err <> sql_ErrNoRows)
  /\ (forall e, (dbhelpers.GetProfileNameFromID id tx).2 = Some e ->
      exists err, sql.select_profile_name tx id = inl err /\ err <> sql_ErrNoRows)
  /\ (forall e, (dbhelpers.GetProfileIDFromName name tx).2 = Some e ->
      exists err, sql.select_profile_id tx name = inl err /\ err <> sql_ErrNoRows).
Proof.
  unfold dbhelpers.GetParam, dbhelpers.GetDSNameFromID,
    dbhelpers.GetDSNameAndCDNFromID, dbhelpers.GetProfileNameFromID,
    dbhelpers.GetProfileIDFromName.
  repeat split.
  1-5: intros ->; reflexivity.
  all: intros e.
  - destruct (sql.select_parameter_value tx name configFile) as [err|v]; [|discriminate].
    case_decide; [discriminate|]. eauto.
  - destruct (sql.select_ds_xml_id tx id) as [err|v]; [|discriminate].
    case_decide; [discriminate|]. eauto.
  - destruct (sql.select_ds_xml_id_and_cdn tx id) as [err|[v c]]; [|discriminate].
    case_decide; [discriminate|]. eauto.
  - destruct (sql.select_profile_name tx id) as [err|v]; [|discriminate].
    case_decide; [discriminate|]. eauto.
  - destruct (sql.select_profile_id tx name) as [err|v]; [|discriminate].
    case_decide; [discriminate|]. eauto.
Qed.

(** The readers on a database without rows, and on one whose queries fail. *)
Lemma missing_row_is_not_an_error_witness :
  dbhelpers.GetParam sample.tx "tm.url" "global" = ("", false, None)
  /\ dbhelpers.GetDSNameAndCDNFromID sample.tx 42 = ("", "", false, None)
  /\ exists err, sql.select_profile_id sample.broken_tx "EDGE" = inl err
                 /\ err <> sql_ErrNoRows.
Proof.
  pose proof (missing_row_is_not_an_error sample.tx "tm.url" "global" 42) as H.
  pose proof (missing_row_is_not_an_error sample.broken_tx "EDGE" "global" 42) as B.
  split; [apply H; reflexivity|].
  split; [apply H; reflexivity|].
  destruct B as (_ & _ & _ & _ & _ & _ & _ & _ & _ & B).
  exact (B (errors_New "querying profile id from name: driver: bad connection")
           eq_refl).
Defined.

End Readers.

(** ** The key store *)
Section KeyStore.
Import golang.

Lemma call_objects c r c' :
  riaksvc.call c = (r, c') -> riaksvc.objects c' = riaksvc.objects c.
Proof.
  unfold riaksvc.call. destruct (riaksvc.faults c); intros [= <- <-]; reflexivity.
Qed.

Lemma GetDNSSECKeys_reads cdnName tx auth c r c' :
  riaksvc.GetDNSSECKeys cdnName tx auth c = (r, c') ->
  riaksvc.objects c' = riaksvc.objects c
  /\ forall keys found, r = inr (keys, found) ->
       if found then riaksvc.objects c !! (riaksvc.DNSSECKeysBucket, cdnName) = Some keys
       else riaksvc.objects c !! (riaksvc.DNSSECKeysBucket, cdnName) = None.
Proof.
  unfold riaksvc.GetDNSSECKeys.
  destruct (riaksvc.call c) as [[e|] c1] eqn:Hc;
    apply call_objects in Hc.
  - intros [= <- <-]. split; [done|]. discriminate.
  - destruct (riaksvc.objects c1 !! _) as [old|] eqn:Hold;
      intros [= <- <-]; (split; [done|]); intros keys found [= <- <-];
      by rewrite <- Hc.
Qed.

Lemma PutDNSSECKeys_writes keys cdnName tx auth c r c' :
  riaksvc.PutDNSSECKeys keys cdnName tx auth c = (r, c') ->
  match r with
  | None => riaksvc.objects c'
            = <[(riaksvc.DNSSECKeysBucket, cdnName) := keys]> (riaksvc.objects c)
  | Some _ => riaksvc.objects c' = riaksvc.objects c
  end.
Proof.
  unfold riaksvc.PutDNSSECKeys.
  destruct (riaksvc.call c) as [[e|] c1] eqn:Hc;
    apply call_objects in Hc; intros [= <- <-]; simpl; by rewrite Hc.
Qed.

End KeyStore.

(** ** The rotation *)
Section Rotation.
Import golang.
Context `{C : deliveryservice.Collaborators}.

Implicit Types (tx : sql.Tx) (cfg : config.Config) (w : cdn.World)
  (dses : list cdn.CDNDS) (newKeys : tc.DNSSECKeys).

(** The durations [generateStoreDNSSECKeys] computes from its arguments. *)
Local Abbreviation ttlOf ttlSeconds := (time.mul (time.Duration ttlSeconds) time.Second).
Local Abbreviation expOf days := (time.mul (time.mul (time.Duration days) time.Hour) 24).

(** The loop touches nothing but the key factory. *)
Lemma createDSKeys_frame tx cfg matchLists cdnDomain cdnKeys kExp zExp ttl dses :
  forall newKeys w r w',
    cdn.createDSKeys tx cfg matchLists cdnDomain cdnKeys kExp zExp ttl dses newKeys w
    = (r, w') ->
    cdn.riak w' = cdn.riak w /\ cdn.heap w' = cdn.heap w
    /\ cdn.changelog w' = cdn.changelog w.
Proof.
  induction dses as [|ds dses IH]; simpl; intros newKeys w r w' H.
  - by injection H as <- <-.
  - destruct (negb _ && negb _); [by eapply IH|].
    destruct (matchLists !! cdn.Name ds) as [matchlist|]; [|by injection H as <- <-].
    unfold cdn.bind, cdn.wrap, cdn.on_keygen in H.
    destruct (deliveryservice.CreateDNSSECKeys _ _ _ _ _ _ _ _ _ _) as [[e|ks] g].
    + by injection H as <- <-.
    + apply IH in H. exact H.
Qed.

(** What a key set of the resulting bundle is: one that was there before
    the loop, or one the key factory returned for an eligible delivery
    service of that name. *)
Lemma createDSKeys_lookup tx cfg matchLists cdnDomain cdnKeys kExp zExp ttl dses :
  forall newKeys w newKeys' w',
    cdn.createDSKeys tx cfg matchLists cdnDomain cdnKeys kExp zExp ttl dses newKeys w
    = (inr newKeys', w') ->
    forall name ks, newKeys' !! name = Some ks ->
      newKeys !! name = Some ks
      \/ exists ds urls g g',
           ds ∈ dses /\ cdn.eligible ds = true /\ cdn.Name ds = name
           /\ deliveryservice.CreateDNSSECKeys tx cfg name urls cdnKeys kExp zExp
                ttl true g = (inr ks, g').
Proof.
  induction dses as [|ds dses IH]; simpl; intros newKeys w newKeys' w' H name ks Hks.
  - injection H as <- <-. by left.
  - destruct (negb _ && negb _) eqn:Hskip.
    { destruct (IH _ _ _ _ H _ _ Hks) as [?|(ds' & u & g & g' & ? & ?)]; [by left|].
      right. exists ds', u, g, g'. split; [by apply list_elem_of_further|done]. }
    destruct (matchLists !! cdn.Name ds) as [matchlist|]; [|discriminate].
    unfold cdn.bind, cdn.wrap, cdn.on_keygen in H.
    destruct (deliveryservice.CreateDNSSECKeys _ _ _ _ _ _ _ _ _ _)
      as [[e|dsKeys] g] eqn:Hmint; [discriminate|].
    destruct (IH _ _ _ _ H _ _ Hks) as [Hin|(ds' & u & g1 & g' & ? & ?)].
    + destruct (decide (cdn.Name ds = name)) as [<-|Hne].
      * rewrite lookup_insert_eq in Hin. injection Hin as <-.
        right. eexists ds, _, _, _. split; [apply list_elem_of_here|].
        split; [unfold cdn.eligible; by rewrite Hskip|]. split; [done|]. exact Hmint.
      * rewrite lookup_insert_ne in Hin by done. by left.
    + right. exists ds', u, g1, g'. split; [by apply list_elem_of_further|done].
Qed.

(** Which names the resulting bundle has a key set for. *)
Lemma createDSKeys_names tx cfg matchLists cdnDomain cdnKeys kExp zExp ttl dses :
  forall newKeys w newKeys' w',
    cdn.createDSKeys tx cfg matchLists cdnDomain cdnKeys kExp zExp ttl dses newKeys w
    = (inr newKeys', w') ->
    forall name, is_Some (newKeys' !! name) <->
      is_Some (newKeys !! name)
      \/ exists ds, ds ∈ dses /\ cdn.eligible ds = true /\ cdn.Name ds = name.
Proof.
  induction dses as [|ds dses IH]; simpl; intros newKeys w newKeys' w' H name.
  - injection H as <- <-. split; [by left|]. intros [?|(ds & Hin & _)]; [done|].
    by apply elem_of_nil in Hin.
  - destruct (negb _ && negb _) eqn:Hskip.
    { rewrite (IH _ _ _ _ H name). split.
      - intros [?|(ds' & ? & ?)]; [by left|]. right. exists ds'.
        split; [by apply list_elem_of_further|done].
      - intros [?|(ds' & Hin & He & Hn)]; [by left|].
        apply elem_of_cons in Hin as [->|Hin].
        + unfold cdn.eligible in He. rewrite Hskip in He. discriminate.
        + right. by exists ds'. }
    destruct (matchLists !! cdn.Name ds) as [matchlist|]; [|discriminate].
    unfold cdn.bind, cdn.wrap, cdn.on_keygen in H.
    destruct (deliveryservice.CreateDNSSECKeys _ _ _ _ _ _ _ _ _ _)
      as [[e|dsKeys] g] eqn:Hmint; [discriminate|].
    rewrite (IH _ _ _ _ H name). split.
    + intros [Hin|(ds' & ? & ?)].
      * destruct (decide (cdn.Name ds = name)) as [<-|Hne].
        -- right. exists ds. split; [apply list_elem_of_here|].
           split; [unfold cdn.eligible; by rewrite Hskip|done].
        -- rewrite lookup_insert_ne in Hin by done. by left.
      * right. exists ds'. split; [by apply list_elem_of_further|done].
    + intros [Hin|(ds' & Hin & He & Hn)].
      * left. destruct (decide (cdn.Name ds = name)) as [<-|Hne].
        -- by rewrite lookup_insert_eq.
        -- by rewrite lookup_insert_ne.
      * apply elem_of_cons in Hin as [->|Hin].
        -- left. rewrite Hn. by rewrite lookup_insert_eq.
        -- right. by exists ds'.
Qed.

(** The loop fails when an eligible delivery service has no match list. *)
Lemma createDSKeys_needs_matchlists tx cfg matchLists cdnDomain cdnKeys kExp zExp ttl dses :
  forall newKeys w newKeys' w',
    cdn.createDSKeys tx cfg matchLists cdnDomain cdnKeys kExp zExp ttl dses newKeys w
    = (inr newKeys', w') ->
    forall ds, ds ∈ dses -> cdn.eligible ds = true ->
      is_Some (matchLists !! cdn.Name ds).
Proof.
  induction dses as [|ds dses IH]; simpl; intros newKeys w newKeys' w' H ds' Hin He.
  - by apply elem_of_nil in Hin.
  - destruct (negb _ && negb _) eqn:Hskip.
    { apply elem_of_cons in Hin as [->|Hin]; [|by eapply IH].
      unfold cdn.eligible in He. rewrite Hskip in He. discriminate. }
    destruct (matchLists !! cdn.Name ds) as [matchlist|] eqn:Hml; [|discriminate].
    unfold cdn.bind, cdn.wrap, cdn.on_keygen in H.
    destruct (deliveryservice.CreateDNSSECKeys _ _ _ _ _ _ _ _ _ _)
      as [[e|dsKeys] g] eqn:Hmint; [discriminate|].
    apply elem_of_cons in Hin as [->|Hin]; [by rewrite Hml|by eapply IH].
Qed.

(** A delivery service that is not eligible is passed over: the loop runs
    as if it were not in the list. *)
Lemma createDSKeys_skip tx cfg matchLists cdnDomain cdnKeys kExp zExp ttl ds pre post :
  cdn.eligible ds = false ->
  forall newKeys w,
    cdn.createDSKeys tx cfg matchLists cdnDomain cdnKeys kExp zExp ttl
      (pre ++ ds :: post) newKeys w
    = cdn.createDSKeys tx cfg matchLists cdnDomain cdnKeys kExp zExp ttl
        (pre ++ post) newKeys w.
Proof.
  intros He. induction pre as [|d pre IH]; simpl; intros newKeys w.
  - unfold cdn.eligible in He. apply negb_false_iff in He. by rewrite He.
  - destruct (negb _ && negb _); [apply IH|].
    destruct (matchLists !! cdn.Name d) as [matchlist|]; [|done].
    unfold cdn.bind. destruct (cdn.wrap _ _ w) as [[e|dsKeys] w1]; [done|apply IH].
Qed.

(** A rotation that returns nil: what it read, and what it wrote. *)
Lemma rotation_success lister tx cfg cdnName ttlSeconds kExpDays zExpDays eff w w' :
  cdn.generateStoreDNSSECKeysFrom lister tx cfg cdnName ttlSeconds kExpDays zExpDays
    eff w = (None, w') ->
  exists oldKeys dses cdnDomain matchLists newKeys w0 w1,
    cdn.stored w cdnName = Some oldKeys
    /\ lister tx cdnName = inr (dses, cdnDomain)
    /\ deliveryservice.GetDeliveryServicesMatchLists (cdn.Name <$> dses) tx
       = inr matchLists
    /\ cdn.createDSKeys tx cfg matchLists cdnDomain
         (cdn.demoteCDNKeys oldKeys cdnName (ttlOf ttlSeconds) eff)
         (expOf kExpDays) (expOf zExpDays) (ttlOf ttlSeconds) dses
         {[ cdnName := cdn.demoteCDNKeys oldKeys cdnName (ttlOf ttlSeconds) eff ]} w0
       = (inr newKeys, w1)
    /\ cdn.stored w' cdnName = Some newKeys
    /\ riaksvc.objects (cdn.riak w')
       = <[(riaksvc.DNSSECKeysBucket, cdnName) := newKeys]>
           (riaksvc.objects (cdn.riak w))
    /\ cdn.heap w' = cdn.heap w.
Proof.
  unfold cdn.generateStoreDNSSECKeysFrom, cdn.rotate, cdn.returned_error, cdn.bind,
    cdn.wrap, cdn.on_riak, cdn.pure_call, cdn.fail, cdn.as_result.
  destruct (riaksvc.GetDNSSECKeys _ _ _ _) as [[e|[oldKeys found]] c1] eqn:Hget;
    [discriminate|].
  apply GetDNSSECKeys_reads in Hget as [Hobj Hold]. specialize (Hold _ _ eq_refl).
  destruct found; [|discriminate].
  destruct (lister tx cdnName) as [e|[dses cdnDomain]] eqn:Hlist; [discriminate|].
  destruct (deliveryservice.GetDeliveryServicesMatchLists _ _) as [e|matchLists] eqn:Hml;
    [discriminate|].
  rewrite lookup_insert_eq. simpl.
  destruct (cdn.createDSKeys _ _ _ _ _ _ _ _ _ _ _) as [[e|newKeys] w1] eqn:Hloop;
    [discriminate|].
  destruct (riaksvc.PutDNSSECKeys _ _ _ _ _) as [[e|] c2] eqn:Hput; [discriminate|].
  intros [= <-].
  apply PutDNSSECKeys_writes in Hput.
  pose proof (createDSKeys_frame _ _ _ _ _ _ _ _ _ _ _ _ _ Hloop) as (Hr & Hh & _).
  simpl in Hr, Hh.
  eexists oldKeys, dses, cdnDomain, matchLists, newKeys, _, w1.
  split; [exact Hold|]. split; [done|]. split; [done|]. split; [exact Hloop|].
  unfold cdn.stored. simpl. rewrite Hput, Hr, Hobj.
  split; [apply lookup_insert_eq|]. split; [done|]. exact Hh.
Qed.

(** A rotation that returns an error has written nothing. *)
Lemma rotation_failure lister tx cfg cdnName ttlSeconds kExpDays zExpDays eff w e w' :
  cdn.generateStoreDNSSECKeysFrom lister tx cfg cdnName ttlSeconds kExpDays zExpDays
    eff w = (Some e, w') ->
  riaksvc.objects (cdn.riak w') = riaksvc.objects (cdn.riak w)
  /\ cdn.heap w' = cdn.heap w.
Proof.
  unfold cdn.generateStoreDNSSECKeysFrom, cdn.rotate, cdn.returned_error, cdn.bind,
    cdn.wrap, cdn.on_riak, cdn.pure_call, cdn.fail, cdn.as_result.
  destruct (riaksvc.GetDNSSECKeys _ _ _ _) as [[e0|[oldKeys found]] c1] eqn:Hget;
    apply GetDNSSECKeys_reads in Hget as [Hobj _].
  { by intros [= <- <-]. }
  destruct found; [|by intros [= <- <-]].
  destruct (lister tx cdnName) as [e0|[dses cdnDomain]]; [by intros [= <- <-]|].
  destruct (deliveryservice.GetDeliveryServicesMatchLists _ _) as [e0|matchLists];
    [by intros [= <- <-]|].
  simpl.
  destruct (cdn.createDSKeys _ _ _ _ _ _ _ _ _ _ _) as [[e0|newKeys] w1] eqn:Hloop;
    pose proof (createDSKeys_frame _ _ _ _ _ _ _ _ _ _ _ _ _ Hloop) as (Hr & Hh & _);
    simpl in Hr, Hh.
  { intros [= <- <-]. by rewrite Hr. }
  destruct (riaksvc.PutDNSSECKeys _ _ _ _ _) as [[e0|] c2] eqn:Hput; [|discriminate].
  apply PutDNSSECKeys_writes in Hput. intros [= <- <-]. simpl.
  by rewrite Hput, Hr.
Qed.

Lemma eligible_orb (ds : cdn.CDNDS) :
  cdn.eligible ds
  = deliveryservice.IsHTTP (cdn.Type_ ds) || deliveryservice.IsDNS (cdn.Type_ ds).
Proof.
  unfold cdn.eligible.
  by destruct (deliveryservice.IsHTTP _), (deliveryservice.IsDNS _).
Qed.

(** *** The demotion of the CDN's own keys *)

Lemma appendDemotedHead_cons ttl eff key keys :
  cdn.appendDemotedHead true ttl eff (key :: keys)
  = (key :: keys) ++ [cdn.demote ttl eff key].
Proof. reflexivity. Qed.

Lemma appendDemotedHead_nil found ttl eff :
  cdn.appendDemotedHead found ttl eff [] = [].
Proof. by destruct found. Qed.

Lemma demoteCDNKeys_Some oldKeys cdnName ttl eff s :
  oldKeys !! cdnName = Some s ->
  cdn.demoteCDNKeys oldKeys cdnName ttl eff
  = {| tc.ZSK := cdn.appendDemotedHead true ttl eff (tc.ZSK s);
       tc.KSK := cdn.appendDemotedHead true ttl eff (tc.KSK s) |}.
Proof.
  intros Hs. unfold cdn.demoteCDNKeys. rewrite Hs. reflexivity.
Qed.

Lemma appendDemotedHead_prefix found ttl eff keys :
  exists tail, cdn.appendDemotedHead found ttl eff keys = keys ++ tail.
Proof.
  unfold cdn.appendDemotedHead.
  destruct (found && _); [|exists []; by rewrite app_nil_r].
  destruct (keys !! 0%nat); [eauto|]. exists []. by rewrite app_nil_r.
Qed.

Lemma headIsNew_app keys tail :
  cdn.headIsNew keys = true -> cdn.headIsNew (keys ++ tail) = true.
Proof. unfold cdn.headIsNew. by destruct keys. Qed.

(** The seconds survive the passage through [time.Duration] as long as the
    nanoseconds fit an [int64]. *)
Lemma ttl_seconds_roundtrip (ttlSeconds : Z) :
  (0 <= ttlSeconds <= 9223372036)%Z ->
  uint64 (time.div (ttlOf ttlSeconds) time.Second) = ttlSeconds.
Proof.
  intros Hb.
  unfold uint64, time.div, time.mul, time.Duration, time.Second, int64.
  change (2 ^ 63)%Z with 9223372036854775808%Z.
  change (2 ^ 64)%Z with 18446744073709551616%Z.
  rewrite (Z.mod_small (ttlSeconds + _)) by lia.
  replace (ttlSeconds + 9223372036854775808 - 9223372036854775808)%Z
    with ttlSeconds by lia.
  rewrite (Z.mod_small (ttlSeconds * _ + _)) by lia.
  replace (ttlSeconds * 1000000000 + 9223372036854775808 - 9223372036854775808)%Z
    with (ttlSeconds * 1000000000)%Z by lia.
  rewrite Z.quot_mul by lia.
  rewrite (Z.mod_small (ttlSeconds + _)) by lia.
  replace (ttlSeconds + 9223372036854775808 - 9223372036854775808)%Z
    with ttlSeconds by lia.
  apply Z.mod_small. lia.
Qed.

(** The CDN's own key set reaches the key store as the demotion left it,
    unless an eligible delivery service bears the CDN's name. *)
Lemma rotation_writes_demoted lister tx cfg cdnName ttlSeconds kExpDays zExpDays eff
    w w' oldKeys dses cdnDomain :
  cdn.generateStoreDNSSECKeysFrom lister tx cfg cdnName ttlSeconds kExpDays zExpDays
    eff w = (None, w') ->
  cdn.stored w cdnName = Some oldKeys ->
  lister tx cdnName = inr (dses, cdnDomain) ->
  (forall ds, ds ∈ dses -> cdn.eligible ds = true -> cdn.Name ds <> cdnName) ->
  exists bundle,
    cdn.stored w' cdnName = Some bundle
    /\ bundle !! cdnName
       = Some (cdn.demoteCDNKeys oldKeys cdnName (ttlOf ttlSeconds) eff).
Proof.
  intros Hrun Hold Hlist Hnames.
  apply rotation_success in Hrun
    as (oldKeys' & dses' & dom' & ml & newKeys & w0 & w1
        & Hold' & Hlist' & _ & Hloop & Hst & _).
  rewrite Hold in Hold'. injection Hold' as <-.
  rewrite Hlist in Hlist'. injection Hlist' as <- <-.
  exists newKeys. split; [done|].
  pose proof (createDSKeys_names _ _ _ _ _ _ _ _ _ _ _ _ _ Hloop cdnName) as Hn.
  destruct (proj2 Hn) as [ks Hks].
  { left. rewrite lookup_singleton_eq. eauto. }
  rewrite Hks.
  destruct (createDSKeys_lookup _ _ _ _ _ _ _ _ _ _ _ _ _ Hloop _ _ Hks)
    as [Hin|(ds & _ & _ & _ & Hds & He & Hname & _)].
  - by rewrite lookup_singleton_eq in Hin.
  - by destruct (Hnames ds Hds He).
Qed.

(** *** The claims about [generateStoreDNSSECKeys] *)

(** C1, as amended: the rotation mints no key for the CDN itself, it keeps
    the stored lists and appends a demoted copy of each head.  So when
    the stored bundle's key set for the CDN has at least one KSK and one
    ZSK whose heads have status new, and the key factory returns key sets
    with that property, then after a successful rotation every key set of
    the bundle written to the key store has at least one KSK and one ZSK,
    and the records at index 0 have status new. *)
Theorem rotation_keeps_heads_new lister tx cfg cdnName ttlSeconds kExpDays zExpDays eff
    w w' oldKeys apex :
  (forall tx cfg xmlID urls cdnKeys kExp zExp ttl overrideTTL g ks g',
     deliveryservice.CreateDNSSECKeys tx cfg xmlID urls cdnKeys kExp zExp ttl
       overrideTTL g = (inr ks, g') ->
     cdn.headsAreNew ks = true) ->
  cdn.stored w cdnName = Some oldKeys ->
  oldKeys !! cdnName = Some apex ->
  cdn.headsAreNew apex = true ->
  cdn.generateStoreDNSSECKeysFrom lister tx cfg cdnName ttlSeconds kExpDays zExpDays
    eff w = (None, w') ->
  exists bundle,
    cdn.stored w' cdnName = Some bundle
    /\ forall name ks, bundle !! name = Some ks ->
         (1 <= length (tc.KSK ks))%nat /\ (1 <= length (tc.ZSK ks))%nat
         /\ (exists key, tc.KSK ks !! 0%nat = Some key /\ tc.Status key = "new")
         /\ (exists key, tc.ZSK ks !! 0%nat = Some key /\ tc.Status key = "new").
Proof.
  intros Hfactory Hold Hapex Hnew Hrun.
  apply rotation_success in Hrun
    as (oldKeys' & dses & dom & ml & newKeys & w0 & w1
        & Hold' & _ & _ & Hloop & Hst & _).
  rewrite Hold in Hold'. injection Hold' as <-.
  exists newKeys. split; [done|]. intros name ks Hks.
  assert (cdn.headsAreNew ks = true) as Hok.
  { destruct (createDSKeys_lookup _ _ _ _ _ _ _ _ _ _ _ _ _ Hloop _ _ Hks)
      as [Hin|(ds & urls & g & g' & _ & _ & _ & Hmint)]; [|by eapply Hfactory].
    apply lookup_singleton_Some in Hin as [_ <-].
    rewrite (demoteCDNKeys_Some _ _ _ _ _ Hapex).
    unfold cdn.headsAreNew in *. simpl.
    apply andb_true_iff in Hnew as [Hk Hz]. apply andb_true_iff.
    destruct (appendDemotedHead_prefix true (ttlOf ttlSeconds) eff (tc.KSK apex))
      as [tk ->].
    destruct (appendDemotedHead_prefix true (ttlOf ttlSeconds) eff (tc.ZSK apex))
      as [tz ->].
    split; by apply headIsNew_app. }
  unfold cdn.headsAreNew, cdn.headIsNew in Hok.
  apply andb_true_iff in Hok as [Hk Hz].
  destruct (tc.KSK ks) as [|k ksk]; [discriminate|].
  destruct (tc.ZSK ks) as [|z zsk]; [discriminate|].
  simpl in *. apply bool_decide_eq_true in Hk, Hz.
  repeat split; try lia; eauto.
Qed.

(** C2, as amended: when the stored bundle has a key set for the CDN, the
    rotation replaces each non-empty key list by the same list followed by
    exactly one copy of its head with status existing and the expiration
    set to effectiveDateUnix, whatever the requested ttl; no prior entry is
    removed or moved, so the copy sits at an index of at least 1.  The
    copy's ttl-seconds are [uint64(ttl / time.Second)], which is the
    requested ttlSeconds provided ttlSeconds is at most 9223372036 (its
    nanoseconds fit a [time.Duration]).  That key set is what a successful
    rotation writes under the CDN's name, unless an eligible delivery
    service bears that name. *)
Theorem demotion_appends_one_copy lister tx cfg cdnName ttlSeconds kExpDays zExpDays eff
    w oldKeys apex :
  cdn.stored w cdnName = Some oldKeys ->
  oldKeys !! cdnName = Some apex ->
  let seconds := uint64 (time.div (ttlOf ttlSeconds) time.Second) in
  let copy (key : tc.DNSSECKey) :=
    {| tc.InceptionDateUnix := tc.InceptionDateUnix key;
       tc.ExpirationDateUnix := eff;
       tc.Name := tc.Name key;
       tc.TTLSeconds := seconds;
       tc.Status := "existing";
       tc.Public := tc.Public key;
       tc.Private := tc.Private key;
       tc.DSRecord := tc.DSRecord key |} in
  let demoted := cdn.demoteCDNKeys oldKeys cdnName (ttlOf ttlSeconds) eff in
  (forall key keys, tc.KSK apex = key :: keys ->
     tc.KSK demoted = tc.KSK apex ++ [copy key]
     /\ tc.KSK demoted !! length (tc.KSK apex) = Some (copy key)
     /\ (1 <= length (tc.KSK apex))%nat)
  /\ (forall key keys, tc.ZSK apex = key :: keys ->
        tc.ZSK demoted = tc.ZSK apex ++ [copy key]
        /\ tc.ZSK demoted !! length (tc.ZSK apex) = Some (copy key)
        /\ (1 <= length (tc.ZSK apex))%nat)
  /\ ((0 <= ttlSeconds <= 9223372036)%Z -> seconds = ttlSeconds)
  /\ (forall w' dses cdnDomain,
        cdn.generateStoreDNSSECKeysFrom lister tx cfg cdnName ttlSeconds kExpDays
          zExpDays eff w = (None, w') ->
        lister tx cdnName = inr (dses, cdnDomain) ->
        (forall ds, ds ∈ dses ->
           deliveryservice.IsHTTP (cdn.Type_ ds)
           || deliveryservice.IsDNS (cdn.Type_ ds) = true ->
           cdn.Name ds <> cdnName) ->
        exists bundle,
          cdn.stored w' cdnName = Some bundle /\ bundle !! cdnName = Some demoted).
Proof.
  intros Hold Hapex seconds copy demoted. subst demoted.
  rewrite (demoteCDNKeys_Some _ _ _ _ _ Hapex). simpl.
  assert (forall key, cdn.demote (ttlOf ttlSeconds) eff key = copy key) as Hcopy
    by reflexivity.
  split; [|split; [|split]].
  - intros key keys ->. rewrite appendDemotedHead_cons, Hcopy.
    split; [done|]. split; [|simpl; lia].
    by rewrite list_lookup_middle.
  - intros key keys ->. rewrite appendDemotedHead_cons, Hcopy.
    split; [done|]. split; [|simpl; lia].
    by rewrite list_lookup_middle.
  - apply ttl_seconds_roundtrip.
  - intros w' dses cdnDomain Hrun Hlist Hnames.
    destruct (rotation_writes_demoted _ _ _ _ _ _ _ _ _ _ _ _ _ Hrun Hold Hlist)
      as (bundle & Hst & Hb).
    { intros ds Hin He. apply Hnames; [done|]. by rewrite <- eligible_orb. }
    exists bundle. split; [done|].
    by rewrite Hb, (demoteCDNKeys_Some _ _ _ _ _ Hapex).
Qed.

(** C10: the demotion works on a copy.  When the stored bundle has a key
    set for the CDN, every record of its KSK list and of its ZSK list, the
    one at index 0 in particular, is after the demotion the record it was
    before, field for field; the only record that the demotion gives the
    status existing is the copy it appends. *)
Theorem demotion_leaves_head_untouched oldKeys cdnName ttl eff apex :
  oldKeys !! cdnName = Some apex ->
  (forall i key, tc.KSK apex !! i = Some key ->
     tc.KSK (cdn.demoteCDNKeys oldKeys cdnName ttl eff) !! i = Some key)
  /\ (forall i key, tc.ZSK apex !! i = Some key ->
        tc.ZSK (cdn.demoteCDNKeys oldKeys cdnName ttl eff) !! i = Some key)
  /\ tc.KSK (cdn.demoteCDNKeys oldKeys cdnName ttl eff) !! 0%nat = tc.KSK apex !! 0%nat
  /\ tc.ZSK (cdn.demoteCDNKeys oldKeys cdnName ttl eff) !! 0%nat = tc.ZSK apex !! 0%nat
  /\ (forall head, tc.KSK apex !! 0%nat = Some head ->
        exists copy,
          tc.KSK (cdn.demoteCDNKeys oldKeys cdnName ttl eff) = tc.KSK apex ++ [copy]
          /\ tc.Status copy = "existing"
          /\ tc.Name copy = tc.Name head /\ tc.Public copy = tc.Public head
          /\ tc.Private copy = tc.Private head)
  /\ (forall head, tc.ZSK apex !! 0%nat = Some head ->
        exists copy,
          tc.ZSK (cdn.demoteCDNKeys oldKeys cdnName ttl eff) = tc.ZSK apex ++ [copy]
          /\ tc.Status copy = "existing"
          /\ tc.Name copy = tc.Name head /\ tc.Public copy = tc.Public head
          /\ tc.Private copy = tc.Private head).
Proof.
  intros Hapex. rewrite (demoteCDNKeys_Some _ _ _ _ _ Hapex). simpl.
  destruct (appendDemotedHead_prefix true ttl eff (tc.KSK apex)) as [tk Hk].
  destruct (appendDemotedHead_prefix true ttl eff (tc.ZSK apex)) as [tz Hz].
  split; [|split; [|split; [|split; [|split]]]].
  - intros i key Hi. rewrite Hk. by apply lookup_app_l_Some.
  - intros i key Hi. rewrite Hz. by apply lookup_app_l_Some.
  - destruct (tc.KSK apex) as [|k l]; [by rewrite appendDemotedHead_nil|done].
  - destruct (tc.ZSK apex) as [|k l]; [by rewrite appendDemotedHead_nil|done].
  - intros head Hh. destruct (tc.KSK apex) as [|k l]; [done|].
    injection Hh as ->. rewrite appendDemotedHead_cons. eauto 10.
  - intros head Hh. destruct (tc.ZSK apex) as [|k l]; [done|].
    injection Hh as ->. rewrite appendDemotedHead_cons. eauto 10.
Qed.

End Rotation.

(** ** The rotation and the key store *)
Section RotationAndStore.
Import golang.
Context `{C : deliveryservice.Collaborators}.

(** C3: when the key store reports that it holds no bundle for the CDN,
    [generateStoreDNSSECKeys] returns an error whose message contains
    "no DNSSec keys for CDN", and the key store holds after the call what it
    held before, for every CDN. *)
Theorem missing_bundle_is_refused tx cfg cdnName ttlSeconds kExpDays zExpDays eff
    (w : cdn.World) keys c' :
  riaksvc.GetDNSSECKeys cdnName tx (config.RiakAuthOptions cfg) (cdn.riak w)
  = (inr (keys, false), c') ->
  exists e w',
    cdn.generateStoreDNSSECKeys tx cfg cdnName ttlSeconds kExpDays zExpDays eff w
    = (Some e, w')
    /\ Contains (Error e) "no DNSSec keys for CDN" = true
    /\ riaksvc.objects (cdn.riak w') = riaksvc.objects (cdn.riak w)
    /\ forall name, cdn.stored w' name = cdn.stored w name.
Proof.
  intros Hget.
  unfold cdn.generateStoreDNSSECKeys, cdn.generateStoreDNSSECKeysFrom, cdn.rotate,
    cdn.returned_error, cdn.bind, cdn.wrap, cdn.on_riak, cdn.fail.
  rewrite Hget. simpl.
  apply GetDNSSECKeys_reads in Hget as [Hobj _].
  eexists _, _. split; [reflexivity|]. split; [reflexivity|].
  split; [exact Hobj|]. intros name. unfold cdn.stored. simpl. by rewrite Hobj.
Qed.

(** *** The rotation after its reader

    What lines 111-141 do with the delivery services they are handed,
    whichever reader hands them over.  ([getCDNDeliveryServices] as written
    hands over none: see [getCDNDeliveryServices_returns] below.) *)

(** After a rotation that returns nil, the bundle written to the key
    store has a key set under the xml-id of every delivery service that
    the reader returned and whose type is HTTP or DNS. *)
Lemma eligible_ds_gets_key_set lister tx cfg cdnName ttlSeconds kExpDays zExpDays eff
    (w w' : cdn.World) dses cdnDomain (ds : cdn.CDNDS) :
  cdn.generateStoreDNSSECKeysFrom lister tx cfg cdnName ttlSeconds kExpDays zExpDays
    eff w = (None, w') ->
  lister tx cdnName = inr (dses, cdnDomain) ->
  ds ∈ dses ->
  deliveryservice.IsHTTP (cdn.Type_ ds) || deliveryservice.IsDNS (cdn.Type_ ds) = true ->
  exists bundle ks,
    cdn.stored w' cdnName = Some bundle /\ bundle !! cdn.Name ds = Some ks.
Proof.
  intros Hrun Hlist Hin He.
  apply rotation_success in Hrun
    as (oldKeys & dses' & dom' & ml & newKeys & w0 & w1
        & _ & Hlist' & _ & Hloop & Hst & _).
  rewrite Hlist in Hlist'. injection Hlist' as <- <-.
  pose proof (createDSKeys_names _ _ _ _ _ _ _ _ _ _ _ _ _ Hloop (cdn.Name ds)) as Hn.
  destruct (proj2 Hn) as [ks Hks].
  { right. exists ds. by rewrite eligible_orb. }
  by exists newKeys, ks.
Qed.

(** When the match lists the DB returned have no entry for a delivery
    service of type HTTP or DNS that the reader returned, the rotation
    returns an error and writes nothing. *)
Lemma missing_match_list_aborts lister tx cfg cdnName ttlSeconds kExpDays zExpDays eff
    (w : cdn.World) dses cdnDomain matchLists (ds : cdn.CDNDS) :
  lister tx cdnName = inr (dses, cdnDomain) ->
  deliveryservice.GetDeliveryServicesMatchLists (cdn.Name <$> dses) tx
  = inr matchLists ->
  ds ∈ dses ->
  deliveryservice.IsHTTP (cdn.Type_ ds) || deliveryservice.IsDNS (cdn.Type_ ds) = true ->
  matchLists !! cdn.Name ds = None ->
  exists e w',
    cdn.generateStoreDNSSECKeysFrom lister tx cfg cdnName ttlSeconds kExpDays zExpDays
      eff w = (Some e, w')
    /\ riaksvc.objects (cdn.riak w') = riaksvc.objects (cdn.riak w)
    /\ forall name, cdn.stored w' name = cdn.stored w name.
Proof.
  intros Hlist Hml Hin He Hnone.
  destruct (cdn.generateStoreDNSSECKeysFrom lister tx cfg cdnName ttlSeconds kExpDays
              zExpDays eff w) as [[e|] w'] eqn:Hrun.
  - apply rotation_failure in Hrun as [Hobj _].
    exists e, w'. split; [done|]. split; [done|].
    intros name. unfold cdn.stored. by rewrite Hobj.
  - exfalso.
    apply rotation_success in Hrun
      as (oldKeys & dses' & dom' & ml & newKeys & w0 & w1
          & _ & Hlist' & Hml' & Hloop & _).
    rewrite Hlist in Hlist'. injection Hlist' as <- <-.
    rewrite Hml in Hml'. injection Hml' as <-.
    destruct (createDSKeys_needs_matchlists _ _ _ _ _ _ _ _ _ _ _ _ _ Hloop ds Hin)
      as [m Hm]; [by rewrite eligible_orb|].
    by rewrite Hnone in Hm.
Qed.

(** The loop passes over a delivery service whose type is neither HTTP nor
    DNS without calling the key factory, as if it were not in the list;
    the names under which the bundle written has a key set are the CDN's
    name and the xml-ids of the eligible delivery services the reader
    returned. *)
Lemma ineligible_ds_contributes_nothing (ds : cdn.CDNDS) :
  deliveryservice.IsHTTP (cdn.Type_ ds) = false ->
  deliveryservice.IsDNS (cdn.Type_ ds) = false ->
  (forall tx cfg matchLists cdnDomain cdnKeys kExp zExp ttl pre post newKeys w,
     cdn.createDSKeys tx cfg matchLists cdnDomain cdnKeys kExp zExp ttl
       (pre ++ ds :: post) newKeys w
     = cdn.createDSKeys tx cfg matchLists cdnDomain cdnKeys kExp zExp ttl
         (pre ++ post) newKeys w)
  /\ (forall lister tx cfg cdnName ttlSeconds kExpDays zExpDays eff w w' dses cdnDomain,
        cdn.generateStoreDNSSECKeysFrom lister tx cfg cdnName ttlSeconds kExpDays
          zExpDays eff w = (None, w') ->
        lister tx cdnName = inr (dses, cdnDomain) ->
        ds ∈ dses ->
        exists bundle,
          cdn.stored w' cdnName = Some bundle
          /\ (forall name, is_Some (bundle !! name) <->
                name = cdnName
                \/ exists ds', ds' ∈ dses
                     /\ deliveryservice.IsHTTP (cdn.Type_ ds')
                        || deliveryservice.IsDNS (cdn.Type_ ds') = true
                     /\ cdn.Name ds' = name)
          /\ (cdn.Name ds <> cdnName ->
              (forall ds', ds' ∈ dses ->
                 deliveryservice.IsHTTP (cdn.Type_ ds')
                 || deliveryservice.IsDNS (cdn.Type_ ds') = true ->
                 cdn.Name ds' <> cdn.Name ds) ->
              bundle !! cdn.Name ds = None)).
Proof.
  intros Hhttp Hdns.
  assert (cdn.eligible ds = false) as He by (by rewrite eligible_orb, Hhttp, Hdns).
  split; [intros; by apply createDSKeys_skip|].
  intros lister tx cfg cdnName ttlSeconds kExpDays zExpDays eff w w' dses cdnDomain
    Hrun Hlist Hin.
  apply rotation_success in Hrun
    as (oldKeys & dses' & dom' & ml & newKeys & w0 & w1
        & _ & Hlist' & _ & Hloop & Hst & _).
  rewrite Hlist in Hlist'. injection Hlist' as <- <-.
  pose proof (createDSKeys_names _ _ _ _ _ _ _ _ _ _ _ _ _ Hloop) as Hn.
  assert (forall name, is_Some (newKeys !! name) <->
            name = cdnName
            \/ exists ds', ds' ∈ dses
                 /\ deliveryservice.IsHTTP (cdn.Type_ ds')
                    || deliveryservice.IsDNS (cdn.Type_ ds') = true
                 /\ cdn.Name ds' = name) as Hnames.
  { intros name. rewrite (Hn name). split.
    - intros [[ks Hks]|(ds' & ? & He' & ?)].
      + apply lookup_singleton_Some in Hks as [-> _]. by left.
      + right. exists ds'. by rewrite <- eligible_orb.
    - intros [->|(ds' & ? & He' & ?)].
      + left. rewrite lookup_singleton_eq. eauto.
      + right. exists ds'. by rewrite eligible_orb. }
  exists newKeys. split; [done|]. split; [exact Hnames|].
  intros Hne Hothers. apply eq_None_not_Some. intros Hsome.
  apply Hnames in Hsome as [?|(ds' & Hin' & He' & Hname)]; [done|].
  by apply (Hothers ds' Hin' He').
Qed.

(** [getCDNDeliveryServices] as written fails on every row: the scan is
    handed [dsTypeStr] by value.  It returns only when the CDN has no
    delivery service, and then with an empty domain. *)
Lemma getCDNDeliveryServices_returns tx cdnName (dses : list cdn.CDNDS) cdnDomain :
  cdn.getCDNDeliveryServices tx cdnName = inr (dses, cdnDomain) ->
  sql.select_cdn_delivery_services tx cdnName = inr [] /\ dses = [] /\ cdnDomain = "".
Proof.
  unfold cdn.getCDNDeliveryServices.
  destruct (sql.select_cdn_delivery_services tx cdnName) as [e|[|row rows]];
    [discriminate| |discriminate].
  by intros [= <- <-].
Qed.

End RotationAndStore.

(** ** The handlers and the transaction *)
Section Handlers.
Import golang.
Context `{C : deliveryservice.Collaborators}.

Lemma finish_Active s tx h :
  sql.txs h !! sql.id tx = Some sql.Active ->
  sql.txs (sql.finish s tx h) !! sql.id tx = Some s
  /\ sql.bools (sql.finish s tx h) = sql.bools h.
Proof.
  intros Ha. unfold sql.finish. rewrite Ha. simpl.
  by rewrite lookup_insert_eq.
Qed.

(** The rotation leaves the transaction and the commit flag alone. *)
Lemma generateStoreDNSSECKeys_heap tx cfg cdnName ttlSeconds kExpDays zExpDays eff
    (w : cdn.World) r w' :
  cdn.generateStoreDNSSECKeys tx cfg cdnName ttlSeconds kExpDays zExpDays eff w
  = (r, w') ->
  cdn.heap w' = cdn.heap w.
Proof.
  unfold cdn.generateStoreDNSSECKeys. destruct r as [e|]; intros Hrun.
  - by apply rotation_failure in Hrun as [_ ?].
  - apply rotation_success in Hrun. by destruct Hrun as (?&?&?&?&?&?&?&?&?&?&?&?&?&?).
Qed.

(** C7: [FinishTx] and [FinishTxX] do nothing for a nil transaction, commit
    the transaction when the bool their flag points to is true at the time
    of the call and roll it back when it is false.  The handler
    [CreateDNSSECKeys] sets the flag only after [generateStoreDNSSECKeys]
    has returned nil; so, the flag being false and the transaction open
    when the handler starts, the transaction ends committed exactly when
    the rotation succeeded, and rolled back, with a reply other than 200,
    when the rotation (or the parsing of the request) failed. *)
Theorem commit_is_gated_on_success (tx : sql.Tx) (p : nat) (b : bool) (h : sql.Heap)
    (inf : api.APIInfo) (errCode : Z) (parsed : result tc.CDNDNSSECGenerateReq)
    (now : Z) (w : cdn.World) :
  sql.bools h !! p = Some b ->
  sql.txs h !! sql.id tx = Some sql.Active ->
  sql.bools (cdn.heap w) !! api.CommitTx inf = Some false ->
  sql.txs (cdn.heap w) !! sql.id (sqlx.Tx_ (api.Tx inf)) = Some sql.Active ->
  (forall commit h0, dbhelpers.FinishTx None commit h0 = Some h0
                     /\ dbhelpers.FinishTxX None commit h0 = Some h0)
  /\ dbhelpers.FinishTx (Some tx) (Some p) h
     = Some (if b then sql.Commit tx h else sql.Rollback tx h)
  /\ dbhelpers.FinishTxX (Some {| sqlx.Tx_ := tx |}) (Some p) h
     = Some (if b then sql.Commit tx h else sql.Rollback tx h)
  /\ sql.txs (sql.Commit tx h) !! sql.id tx = Some sql.Committed
  /\ sql.txs (sql.Rollback tx h) !! sql.id tx = Some sql.RolledBack
  /\ exists reply w',
       cdn.CreateDNSSECKeys (Some inf, None, None, errCode) parsed now w
       = Some (reply, w')
       /\ match parsed with
          | inl _ =>
              sql.txs (cdn.heap w') !! sql.id (sqlx.Tx_ (api.Tx inf))
              = Some sql.RolledBack
              /\ api.statusCode reply = api.StatusBadRequest
          | inr req =>
              match (cdn.generateStoreDNSSECKeys (sqlx.Tx_ (api.Tx inf))
                       (api.Config inf) (tc.Key req) (tc.TTL req)
                       (tc.KSKExpirationDays req) (tc.ZSKExpirationDays req)
                       (default now (tc.EffectiveDateUnix req)) w).1 with
              | Some _ =>
                  sql.txs (cdn.heap w') !! sql.id (sqlx.Tx_ (api.Tx inf))
                  = Some sql.RolledBack
                  /\ api.statusCode reply = api.StatusInternalServerError
              | None =>
                  sql.txs (cdn.heap w') !! sql.id (sqlx.Tx_ (api.Tx inf))
                  = Some sql.Committed
                  /\ reply = api.WriteResp ("Successfully created dnssec keys for "
                                            +:+ tc.Key req)
              end
          end.
Proof.
  intros Hb Ha Hflag Hopen.
  split; [done|].
  split; [unfold dbhelpers.FinishTx; simpl; rewrite Hb; by destruct b|].
  split; [unfold dbhelpers.FinishTxX; simpl; rewrite Hb; by destruct b|].
  split; [by apply finish_Active|]. split; [by apply finish_Active|].
  unfold cdn.CreateDNSSECKeys. simpl.
  unfold cdn.deferred_Close, api.Close, dbhelpers.FinishTxX.
  destruct parsed as [err|req]; simpl.
  - rewrite Hflag. simpl. eexists _, _. split; [reflexivity|]. simpl.
    split; [by apply finish_Active|done].
  - destruct (cdn.generateStoreDNSSECKeys _ _ _ _ _ _ _ w) as [[e|] w1] eqn:Hrun;
      apply generateStoreDNSSECKeys_heap in Hrun; simpl.
    + rewrite Hrun, Hflag. simpl. eexists _, _. split; [reflexivity|]. simpl.
      split; [|done]. by apply finish_Active.
    + rewrite lookup_insert_eq. simpl. eexists _, _. split; [reflexivity|]. simpl.
      split; [|done]. apply finish_Active. simpl. by rewrite Hrun.
Qed.

(** C8: deleting is idempotent.  With the cluster serving its calls, the
    handler [DeleteDNSSECKeys] answers 200 with the success message whether
    or not the key store holds a bundle for the name; afterwards it holds
    none, a delete of an absent bundle leaves the store as it was, and a
    second delete of the same name answers 200 with the same message. *)
Theorem delete_is_idempotent (inf1 inf2 : api.APIInfo) (code1 code2 : Z)
    (key : string) (w : cdn.World) :
  api.Params inf1 !! "name" = Some key ->
  api.Params inf2 !! "name" = Some key ->
  riaksvc.faults (cdn.riak w) = [] ->
  is_Some (sql.bools (cdn.heap w) !! api.CommitTx inf1) ->
  is_Some (sql.bools (cdn.heap w) !! api.CommitTx inf2) ->
  exists reply w1 w2,
    reply = api.WriteResp ("Successfully deleted dnssec for " +:+ key)
    /\ api.statusCode reply = 200%Z
    /\ cdn.DeleteDNSSECKeys (Some inf1, None, None, code1) w = Some (reply, w1)
    /\ cdn.stored w1 key = None
    /\ (cdn.stored w key = None ->
        riaksvc.objects (cdn.riak w1) = riaksvc.objects (cdn.riak w))
    /\ cdn.DeleteDNSSECKeys (Some inf2, None, None, code2) w1 = Some (reply, w2)
    /\ cdn.stored w2 key = None
    /\ riaksvc.objects (cdn.riak w2) = riaksvc.objects (cdn.riak w1).
Proof.
  intros Hn1 Hn2 Hf [b1 Hb1] [b2 Hb2].
  assert (forall (inf : api.APIInfo) code (v : cdn.World),
            api.Params inf !! "name" = Some key ->
            riaksvc.faults (cdn.riak v) = [] ->
            is_Some (sql.bools (cdn.heap v) !! api.CommitTx inf) ->
            exists v',
              cdn.DeleteDNSSECKeys (Some inf, None, None, code) v
              = Some (api.WriteResp ("Successfully deleted dnssec for " +:+ key), v')
              /\ riaksvc.objects (cdn.riak v')
                 = delete ("dnssec", key) (riaksvc.objects (cdn.riak v))
              /\ riaksvc.faults (cdn.riak v') = []
              /\ forall q, is_Some (sql.bools (cdn.heap v) !! q) ->
                           is_Some (sql.bools (cdn.heap v') !! q)) as Hdel.
  { intros inf code v Hn Hfv _.
    unfold cdn.DeleteDNSSECKeys. simpl. rewrite Hn. simpl.
    unfold riaksvc.GetRiakClusterTx, riaksvc.Start, riaksvc.DeleteObject,
      riaksvc.call.
    repeat (rewrite Hfv; simpl).
    unfold cdn.deferred_Close, api.Close, dbhelpers.FinishTxX. simpl.
    rewrite lookup_insert_eq. simpl.
    eexists. split; [reflexivity|]. simpl. split; [done|]. split; [done|].
    intros q Hq. unfold sql.Commit, sql.finish. simpl.
    assert (is_Some (<[api.CommitTx inf := true]> (sql.bools (cdn.heap v)) !! q)).
    { destruct (decide (api.CommitTx inf = q)) as [->|Hne].
      - rewrite lookup_insert_eq. eauto.
      - by rewrite lookup_insert_ne. }
    by repeat case_match. }
  destruct (Hdel inf1 code1 w Hn1 Hf (ex_intro _ b1 Hb1)) as (w1 & H1 & Ho1 & Hf1 & Hq1).
  destruct (Hdel inf2 code2 w1 Hn2 Hf1 (Hq1 _ (ex_intro _ b2 Hb2)))
    as (w2 & H2 & Ho2 & _ & _).
  assert (cdn.stored w1 key = None) as Hgone.
  { unfold cdn.stored. rewrite Ho1. apply lookup_delete_eq. }
  eexists _, w1, w2. split; [reflexivity|]. split; [reflexivity|].
  split; [exact H1|]. split; [exact Hgone|].
  split; [intros Habs; rewrite Ho1; by apply delete_id|].
  split; [exact H2|]. split.
  - unfold cdn.stored. rewrite Ho2. apply lookup_delete_eq.
  - rewrite Ho2. by apply delete_id.
Qed.

End Handlers.

(** * The code on concrete inputs *)
Section Examples.
Import golang.

(** The rotation of a bundle whose key set for the CDN holds no key returns
    nil (the CDN has no delivery service) and writes that key set as it is:
    no KSK, no ZSK, no record at index 0. *)
Lemma rotation_of_keyless_apex_mints_nothing :
  exists w' bundle ks,
    cdn.generateStoreDNSSECKeys (C := sample.collaborators ∅) sample.tx sample.cfg
      "cdn-a" 3600 365 30 1700000000 (sample.world ∅ sample.keyless) = (None, w')
    /\ cdn.stored w' "cdn-a" = Some bundle
    /\ bundle !! "cdn-a" = Some ks
    /\ length (tc.KSK ks) = 0%nat
    /\ length (tc.ZSK ks) = 0%nat
    /\ tc.KSK ks !! 0%nat = None
    /\ cdn.headsAreNew ks = false.
Proof.
  eexists _, _, _.
  split; [reflexivity|].
  split; [reflexivity|].
  split; [reflexivity|].
  repeat split.
Qed.

Lemma rotation_keeps_heads_new_witness :
  exists bundle,
    cdn.stored sample.warm_rotation.2 "cdn-a" = Some bundle
    /\ forall name ks, bundle !! name = Some ks ->
         (1 <= length (tc.KSK ks))%nat /\ (1 <= length (tc.ZSK ks))%nat
         /\ (exists key, tc.KSK ks !! 0%nat = Some key /\ tc.Status key = "new")
         /\ (exists key, tc.ZSK ks !! 0%nat = Some key /\ tc.Status key = "new").
Proof.
  apply (rotation_keeps_heads_new (C := sample.collaborators sample.both_matchlists)
           (sample.reader sample.both_matchlists sample.dses) sample.tx sample.cfg
           "cdn-a" 3600 365 30 1700000000
           (sample.world sample.both_matchlists sample.warm)
           sample.warm_rotation.2 sample.warm_bundle
           {| tc.ZSK := [sample.apex_key "new"]; tc.KSK := [sample.apex_key "new"] |}).
  - intros tx cfg xmlID urls cdnKeys kExp zExp ttl overrideTTL g ks g' H.
    simpl in H. destruct g as [|zsk [|ksk g]]; try discriminate.
    injection H as <- <-. reflexivity.
  - reflexivity.
  - reflexivity.
  - reflexivity.
  - reflexivity.
Defined.

(** A ttl of 9223372037 seconds does not fit a [time.Duration]: the copy
    that the rotation appends carries another ttl. *)
Lemma demoted_ttl_wraps_around :
  exists w' bundle ks copy,
    cdn.generateStoreDNSSECKeys (C := sample.collaborators ∅) sample.tx sample.cfg
      "cdn-a" 9223372037 365 30 1700000000 (sample.world ∅ sample.warm) = (None, w')
    /\ cdn.stored w' "cdn-a" = Some bundle
    /\ bundle !! "cdn-a" = Some ks
    /\ tc.KSK ks !! 1%nat = Some copy
    /\ tc.Status copy = "existing"
    /\ tc.TTLSeconds copy = 18446744064486179580%Z
    /\ tc.TTLSeconds copy <> 9223372037%Z.
Proof.
  eexists _, _, _, _.
  split; [reflexivity|].
  split; [reflexivity|].
  split; [reflexivity|].
  split; [reflexivity|].
  repeat split. discriminate.
Qed.

Lemma demotion_appends_one_copy_witness :
  tc.KSK (cdn.demoteCDNKeys sample.warm_bundle "cdn-a"
            (time.mul (time.Duration 3600) time.Second) 1700000000)
  = [ sample.apex_key "new";
      {| tc.InceptionDateUnix := 1600000000;
         tc.ExpirationDateUnix := 1700000000;
         tc.Name := "cdn-a.example.net.";
         tc.TTLSeconds := 3600;
         tc.Status := "existing";
         tc.Public := "pub-apex";
         tc.Private := "priv-apex";
         tc.DSRecord := None |} ].
Proof.
  pose proof (demotion_appends_one_copy
                (C := sample.collaborators sample.both_matchlists)
                (sample.reader sample.both_matchlists sample.dses) sample.tx
                sample.cfg "cdn-a" 3600 365 30 1700000000
                (sample.world sample.both_matchlists sample.warm)
                sample.warm_bundle
                {| tc.ZSK := [sample.apex_key "new"];
                   tc.KSK := [sample.apex_key "new"] |}) as H.
  destruct H as (H & _ & Hseconds & _); [reflexivity|reflexivity|].
  destruct (H (sample.apex_key "new") [] eq_refl) as [-> _].
  rewrite Hseconds by lia. reflexivity.
Defined.

Lemma demotion_leaves_head_untouched_witness :
  tc.KSK (cdn.demoteCDNKeys sample.warm_bundle "cdn-a" 3600000000000 1700000000)
  !! 0%nat
  = Some (sample.apex_key "new").
Proof.
  pose proof (demotion_leaves_head_untouched sample.warm_bundle "cdn-a" 3600000000000 1700000000
                {| tc.ZSK := [sample.apex_key "new"];
                   tc.KSK := [sample.apex_key "new"] |}) as H.
  destruct H as (_ & _ & -> & _); [reflexivity|]. reflexivity.
Defined.

Lemma missing_bundle_is_refused_witness :
  exists e w',
    cdn.generateStoreDNSSECKeys (C := sample.collaborators ∅) sample.tx sample.cfg
      "cdn-a" 3600 365 30 1700000000 (sample.world ∅ ∅) = (Some e, w')
    /\ Contains (Error e) "no DNSSec keys for CDN" = true
    /\ riaksvc.objects (cdn.riak w') = ∅
    /\ forall name, cdn.stored w' name = cdn.stored (sample.world ∅ ∅) name.
Proof.
  apply (missing_bundle_is_refused (C := sample.collaborators ∅) sample.tx sample.cfg
           "cdn-a" 3600 365 30 1700000000 (sample.world ∅ ∅) ∅
           (cdn.riak (sample.world ∅ ∅))).
  reflexivity.
Defined.

Lemma eligible_ds_gets_key_set_witness :
  exists bundle ks,
    cdn.stored sample.warm_rotation.2 "cdn-a" = Some bundle
    /\ bundle !! "d2" = Some ks.
Proof.
  apply (eligible_ds_gets_key_set (C := sample.collaborators sample.both_matchlists)
           (sample.reader sample.both_matchlists sample.dses) sample.tx sample.cfg
           "cdn-a" 3600 365 30 1700000000
           (sample.world sample.both_matchlists sample.warm)
           sample.warm_rotation.2 sample.dses ".example.net"
           (sample.ds sample.both_matchlists "d2" "DNS")).
  - reflexivity.
  - reflexivity.
  - apply list_elem_of_further, list_elem_of_here.
  - reflexivity.
Defined.

Lemma missing_match_list_aborts_witness :
  exists e w',
    cdn.generateStoreDNSSECKeysFrom (C := sample.collaborators sample.d2_matchlist)
      (sample.reader sample.d2_matchlist sample.unmatched) sample.tx sample.cfg
      "cdn-a" 3600 365 30 1700000000 (sample.world sample.d2_matchlist sample.warm)
    = (Some e, w')
    /\ riaksvc.objects (cdn.riak w') = sample.warm
    /\ forall name,
         cdn.stored w' name
         = cdn.stored (sample.world sample.d2_matchlist sample.warm) name.
Proof.
  apply (missing_match_list_aborts (C := sample.collaborators sample.d2_matchlist)
           (sample.reader sample.d2_matchlist sample.unmatched) sample.tx sample.cfg
           "cdn-a" 3600 365 30 1700000000
           (sample.world sample.d2_matchlist sample.warm)
           sample.unmatched ".example.net" sample.d2_matchlist
           (sample.ds sample.d2_matchlist "d1" "DNS")).
  - reflexivity.
  - reflexivity.
  - apply list_elem_of_further, list_elem_of_here.
  - reflexivity.
  - reflexivity.
Defined.

Lemma ineligible_ds_contributes_nothing_witness :
  exists bundle,
    cdn.stored sample.warm_rotation.2 "cdn-a" = Some bundle
    /\ bundle !! "d3" = None.
Proof.
  destruct (ineligible_ds_contributes_nothing
              (C := sample.collaborators sample.both_matchlists)
              (sample.ds sample.both_matchlists "d3" "ANY_MAP") eq_refl eq_refl)
    as [_ H].
  destruct (H (sample.reader sample.both_matchlists sample.dses) sample.tx sample.cfg
              "cdn-a" 3600%Z 365%Z 30%Z 1700000000%Z
              (sample.world sample.both_matchlists sample.warm)
              sample.warm_rotation.2 sample.dses ".example.net")
    as (bundle & Hst & _ & Habsent).
  - reflexivity.
  - reflexivity.
  - apply list_elem_of_further, list_elem_of_further, list_elem_of_here.
  - exists bundle. split; [exact Hst|]. apply Habsent; [discriminate|].
    intros ds' Hin He.
    apply elem_of_cons in Hin as [->|Hin]; [discriminate|].
    apply elem_of_cons in Hin as [->|Hin]; [discriminate|].
    apply elem_of_cons in Hin as [->|Hin]; [discriminate|].
    by apply elem_of_nil in Hin.
Defined.

(** The handler on an empty key store: the rotation fails, the reply is a
    500 and the transaction is rolled back.  On a key store that holds the
    CDN's bundle the rotation succeeds and the transaction is committed. *)
Lemma commit_is_gated_on_success_witness :
  (exists reply w',
     cdn.CreateDNSSECKeys (C := sample.collaborators ∅)
       (Some (sample.inf "cdn-a"), None, None, 200%Z) (inr (sample.req 3600))
       1700000000 (sample.world ∅ ∅) = Some (reply, w')
     /\ sql.txs (cdn.heap w') !! 1%nat = Some sql.RolledBack
     /\ api.statusCode reply = 500%Z)
  /\ (exists reply w',
        cdn.CreateDNSSECKeys (C := sample.collaborators ∅)
          (Some (sample.inf "cdn-a"), None, None, 200%Z) (inr (sample.req 3600))
          1700000000 (sample.world ∅ sample.warm) = Some (reply, w')
        /\ sql.txs (cdn.heap w') !! 1%nat = Some sql.Committed
        /\ reply = api.WriteResp "Successfully created dnssec keys for cdn-a").
Proof.
  split.
  - destruct (commit_is_gated_on_success (C := sample.collaborators ∅) sample.tx 7
                false sample.heap (sample.inf "cdn-a") 200 (inr (sample.req 3600))
                1700000000 (sample.world ∅ ∅))
      as (_ & _ & _ & _ & _ & reply & w' & Hrun & Hcase);
      [reflexivity|reflexivity|reflexivity|reflexivity|].
    exists reply, w'. split; [exact Hrun|]. exact Hcase.
  - destruct (commit_is_gated_on_success (C := sample.collaborators ∅) sample.tx 7
                false sample.heap (sample.inf "cdn-a") 200 (inr (sample.req 3600))
                1700000000 (sample.world ∅ sample.warm))
      as (_ & _ & _ & _ & _ & reply & w' & Hrun & Hcase);
      [reflexivity|reflexivity|reflexivity|reflexivity|].
    exists reply, w'. split; [exact Hrun|]. exact Hcase.
Defined.

Lemma delete_is_idempotent_witness :
  exists reply w1 w2,
    reply = api.WriteResp "Successfully deleted dnssec for cdn-a"
    /\ api.statusCode reply = 200%Z
    /\ cdn.DeleteDNSSECKeys (C := sample.collaborators ∅)
         (Some (sample.inf "cdn-a"), None, None, 200%Z) (sample.world ∅ sample.warm)
       = Some (reply, w1)
    /\ cdn.stored w1 "cdn-a" = None
    /\ (cdn.stored (sample.world ∅ sample.warm) "cdn-a" = None ->
        riaksvc.objects (cdn.riak w1) = sample.warm)
    /\ cdn.DeleteDNSSECKeys (C := sample.collaborators ∅)
         (Some (sample.inf "cdn-a"), None, None, 200%Z) w1 = Some (reply, w2)
    /\ cdn.stored w2 "cdn-a" = None
    /\ riaksvc.objects (cdn.riak w2) = riaksvc.objects (cdn.riak w1).
Proof.
  apply (delete_is_idempotent (C := sample.collaborators ∅) (sample.inf "cdn-a")
           (sample.inf "cdn-a") 200 200 "cdn-a" (sample.world ∅ sample.warm)).
  - reflexivity.
  - reflexivity.
  - reflexivity.
  - exists false. reflexivity.
  - exists false. reflexivity.
Defined.

End Examples.

(** * Further properties of dbhelpers *)

(** ** Strings *)
Section Strings.
Import golang.

Lemma string_length_app (s t : string) :
  String.length (s +:+ t) = (String.length s + String.length t)%nat.
Proof. induction s as [|c s IH]; simpl; [done|by f_equal]. Qed.

Lemma substring_0_app (s t : string) :
  String.substring 0 (String.length s) (s +:+ t) = s.
Proof.
  induction s as [|c s IH]; simpl.
  - by destruct t.
  - by f_equal.
Qed.

Lemma string_app_cons c (s t : string) : String c s +:+ t = String c (s +:+ t).
Proof. reflexivity. Qed.

Lemma string_app_assoc (s t u : string) : (s +:+ t) +:+ u = s +:+ (t +:+ u).
Proof.
  induction s as [|c s IH]; [done|]. by rewrite !string_app_cons, IH.
Qed.

Lemma string_app_inv_nil (s t : string) : s +:+ t = s -> t = "".
Proof.
  induction s as [|c s IH]; [done|]. rewrite string_app_cons.
  intros [= H]. by apply IH.
Qed.

Lemma prefix_nil (s : string) : String.prefix "" s = true.
Proof. by destruct s. Qed.

Lemma HasPrefix_app (p s : string) : gostrings.HasPrefix (p +:+ s) p = true.
Proof.
  unfold gostrings.HasPrefix. induction p as [|c p IH]; simpl.
  - apply prefix_nil.
  - destruct (Ascii.ascii_dec c c); [exact IH|done].
Qed.

Lemma HasSuffix_app (s suffix : string) :
  gostrings.HasSuffix (s +:+ suffix) suffix = true.
Proof.
  assert (forall u, gostrings.HasSuffix u suffix
                    = String.eqb u suffix
                      || match u with
                         | EmptyString => false
                         | String _ u' => gostrings.HasSuffix u' suffix
                         end) as Hunfold by (by intros []).
  induction s as [|c s IH].
  - rewrite Hunfold. change ("" +:+ suffix) with suffix.
    by rewrite String.eqb_refl.
  - rewrite Hunfold, string_app_cons, IH. apply orb_true_r.
Qed.

Lemma TrimSuffix_app (s suffix : string) :
  gostrings.TrimSuffix (s +:+ suffix) suffix = s.
Proof.
  unfold gostrings.TrimSuffix. rewrite HasSuffix_app, string_length_app.
  replace (String.length s + String.length suffix - String.length suffix)%nat
    with (String.length s) by lia.
  apply substring_0_app.
Qed.

(** The occurrences of "=" and the pieces [Split] cuts at them. *)
Lemma prefix_cons a (s1 : string) b (s2 : string) :
  String.prefix (String a s1) (String b s2)
  = if Ascii.ascii_dec a b then String.prefix s1 s2 else false.
Proof. reflexivity. Qed.

Lemma Contains_cons c (s substr : string) :
  Contains (String c s) substr
  = String.prefix substr (String c s) || Contains s substr.
Proof. reflexivity. Qed.

Lemma SplitFrom_cons sep c (s : string) :
  gostrings.SplitFrom sep 0 (String c s)
  = if String.prefix sep (String c s) then
      EmptyString :: gostrings.SplitFrom sep (String.length sep - 1) s
    else
      match gostrings.SplitFrom sep 0 s with
      | piece :: pieces => String c piece :: pieces
      | [] => [String c EmptyString]
      end.
Proof. reflexivity. Qed.

Lemma prefix_eq_cons c (s t : string) :
  String.prefix "=" (String c s) = String.prefix "=" (String c t).
Proof. rewrite !prefix_cons. destruct (Ascii.ascii_dec _ _); by rewrite ?prefix_nil. Qed.

Lemma Contains_eq_app (s t : string) :
  Contains (s +:+ t) "=" = Contains s "=" || Contains t "=".
Proof.
  induction s as [|c s IH].
  - by destruct t.
  - rewrite string_app_cons, !Contains_cons, IH, orb_assoc.
    by rewrite (prefix_eq_cons c (s +:+ t) s).
Qed.

Lemma Split_none (s : string) :
  Contains s "=" = false -> gostrings.Split s "=" = [s].
Proof.
  unfold gostrings.Split. induction s as [|c s IH]; [done|].
  rewrite Contains_cons. intros [Hc Hs]%orb_false_iff.
  by rewrite SplitFrom_cons, Hc, (IH Hs).
Qed.

Lemma Split_at_first (s t : string) :
  Contains s "=" = false ->
  gostrings.Split (s +:+ "=" +:+ t) "=" = s :: gostrings.Split t "=".
Proof.
  unfold gostrings.Split. induction s as [|c s IH].
  - intros _. change ("" +:+ "=" +:+ t) with ("=" +:+ t).
    rewrite string_app_cons. change ("" +:+ t) with t.
    rewrite SplitFrom_cons, prefix_cons.
    destruct (Ascii.ascii_dec _ _); [|done]. by rewrite prefix_nil.
  - rewrite Contains_cons. intros [Hc Hs]%orb_false_iff.
    rewrite string_app_cons, SplitFrom_cons.
    rewrite (prefix_eq_cons c _ s), Hc. by rewrite (IH Hs).
Qed.

Lemma SplitFrom_nonempty sep skip (s : string) : gostrings.SplitFrom sep skip s <> [].
Proof.
  revert skip. induction s as [|c s IH]; intros skip; [done|].
  destruct skip as [|skip]; [|apply IH].
  rewrite SplitFrom_cons. destruct (String.prefix _ _); [done|].
  by destruct (gostrings.SplitFrom sep 0 s).
Qed.

Lemma Split_some (s : string) :
  Contains s "=" = true -> (2 <= length (gostrings.Split s "="))%nat.
Proof.
  unfold gostrings.Split. induction s as [|c s IH]; [done|].
  rewrite Contains_cons, SplitFrom_cons.
  destruct (String.prefix "=" (String c s)).
  - intros _. pose proof (SplitFrom_nonempty "=" (String.length "=" - 1) s).
    destruct (gostrings.SplitFrom _ _ s); [done|]. simpl. lia.
  - simpl. intros Hs. specialize (IH Hs).
    destruct (gostrings.SplitFrom "=" 0 s) as [|p [|q l]]; simpl in *; lia.
Qed.

Lemma TrimRight_snoc (s cutset : string) c :
  gostrings.inCutset c cutset = true ->
  gostrings.TrimRight (s +:+ String c "") cutset = gostrings.TrimRight s cutset.
Proof.
  intros Hc. induction s as [|d s IH].
  - simpl. by rewrite Hc.
  - rewrite string_app_cons. simpl. by rewrite IH.
Qed.

Lemma TrimLeft_app (s t cutset : string) :
  gostrings.TrimLeft (s +:+ t) cutset
  = match gostrings.TrimLeft s cutset with
    | EmptyString => gostrings.TrimLeft t cutset
    | String d r => String d r +:+ t
    end.
Proof.
  induction s as [|c s IH]; [done|].
  rewrite string_app_cons. simpl.
  destruct (gostrings.inCutset c cutset); [exact IH|done].
Qed.

(** Trimming a parenthesised text is trimming the text. *)
Lemma Trim_parens (s : string) :
  gostrings.Trim ("(" +:+ s +:+ ")") "()" = gostrings.Trim s "()".
Proof.
  unfold gostrings.Trim. rewrite string_app_cons.
  change ("" +:+ s +:+ ")") with (s +:+ ")").
  assert (forall x, gostrings.TrimLeft ("(" +:+ x) "()" = gostrings.TrimLeft x "()")
    as Hopen by done.
  rewrite <- (string_app_cons _ "" (s +:+ ")")).
  change ("" +:+ s +:+ ")") with (s +:+ ")"). rewrite Hopen, TrimLeft_app.
  destruct (gostrings.TrimLeft s "()") as [|d r]; [done|].
  by apply (TrimRight_snoc (String d r)).
Qed.

End Strings.

Section UniqueConstraint.
Import golang.

Lemma drop_app (p s : string) : gostrings.drop (String.length p) (p +:+ s) = s.
Proof. induction p as [|c p IH]; [done|]. rewrite string_app_cons. exact IH. Qed.

Lemma TrimPrefix_app (p s : string) : gostrings.TrimPrefix (p +:+ s) p = s.
Proof. unfold gostrings.TrimPrefix. by rewrite HasPrefix_app, drop_app. Qed.

Lemma length_pos (s : string) : s <> "" -> bool_decide (0 < String.length s)%nat = true.
Proof. destruct s; [done|]. intros _. apply bool_decide_eq_true. simpl. lia. Qed.

(** The detail of a uniqueness violation, as PostgreSQL words it. *)
Lemma unique_detail (col val : string) :
  "Key (" +:+ col +:+ ")=(" +:+ val +:+ ") already exists."
  = "Key " +:+ (("(" +:+ col +:+ ")") +:+ "=" +:+ ("(" +:+ val +:+ ")"))
    +:+ " already exists.".
Proof. rewrite !string_app_assoc. reflexivity. Qed.

(** X2: for a pq error with a constraint name and the detail
    "Key (col)=(val) already exists.", where neither col nor val contains
    "=", [ParsePQUniqueConstraintError] returns a data conflict whose
    message is "col val already exists.", col and val stripped of the
    parentheses at their ends. *)
Theorem unique_violation_is_parsed (DBError : error) (constraint col val : string) :
  constraint <> "" ->
  Contains col "=" = false ->
  Contains val "=" = false ->
  dbhelpers.ParsePQUniqueConstraintError DBError
    {| pq.Constraint := constraint;
       pq.Detail := "Key (" +:+ col +:+ ")=(" +:+ val +:+ ") already exists." |}
  = (errors_New (gostrings.Trim col "()" +:+ " " +:+ gostrings.Trim val "()"
                 +:+ " already exists."),
     tc.DataConflictError).
Proof.
  intros Hc Hcol Hval. unfold dbhelpers.ParsePQUniqueConstraintError.
  cbn [pq.Constraint pq.Detail].
  rewrite (length_pos constraint Hc), unique_detail.
  rewrite length_pos by done.
  rewrite HasPrefix_app, TrimPrefix_app, TrimSuffix_app.
  rewrite <- (string_app_assoc "Key "), HasSuffix_app.
  cbn [andb].
  rewrite Split_at_first, Split_none.
  - by rewrite !Trim_parens.
  - by rewrite !Contains_eq_app, Hval.
  - by rewrite !Contains_eq_app, Hcol.
Qed.

(** X3: when the duplicate value of the detail contains "=", the detail
    splits into more than two pieces and [ParsePQUniqueConstraintError]
    does not recognise the violation: it returns [tc.DBError] as a system
    error. *)
Theorem unique_violation_with_equals_sign_is_not_parsed (DBError : error)
    (constraint col val : string) :
  Contains col "=" = false ->
  Contains val "=" = true ->
  dbhelpers.ParsePQUniqueConstraintError DBError
    {| pq.Constraint := constraint;
       pq.Detail := "Key (" +:+ col +:+ ")=(" +:+ val +:+ ") already exists." |}
  = (DBError, tc.SystemError).
Proof.
  intros Hcol Hval. unfold dbhelpers.ParsePQUniqueConstraintError.
  cbn [pq.Constraint pq.Detail].
  destruct (bool_decide (0 < String.length constraint)%nat); [|done].
  rewrite unique_detail. rewrite length_pos by done.
  rewrite HasPrefix_app, TrimPrefix_app, TrimSuffix_app.
  rewrite <- (string_app_assoc "Key "), HasSuffix_app.
  cbn [andb].
  rewrite Split_at_first by (by rewrite !Contains_eq_app, Hcol).
  pose proof (Split_some ("(" +:+ val +:+ ")")) as Hn.
  rewrite !Contains_eq_app, Hval in Hn. specialize (Hn eq_refl).
  destruct (gostrings.Split ("(" +:+ val +:+ ")") "=") as [|p [|q l]];
    simpl in Hn; try lia; done.
Qed.

(** X4: [ParsePQUniqueConstraintError] returns [tc.DBError] as a system
    error whenever the constraint name or the detail is empty, or the
    detail does not start with "Key " or does not end with
    " already exists."; and whatever the error, it returns either that or
    a data conflict with a message of the form "... already exists.", the
    latter only for an error with a constraint name and a detail. *)
Theorem unrecognised_pq_error_is_a_system_error (DBError : error) (err : pq.Error) :
  (pq.Constraint err = "" \/ pq.Detail err = ""
   \/ gostrings.HasPrefix (pq.Detail err) "Key " = false
   \/ gostrings.HasSuffix (pq.Detail err) " already exists." = false ->
   dbhelpers.ParsePQUniqueConstraintError DBError err = (DBError, tc.SystemError))
  /\ (dbhelpers.ParsePQUniqueConstraintError DBError err = (DBError, tc.SystemError)
      \/ exists column dupValue,
           dbhelpers.ParsePQUniqueConstraintError DBError err
           = (errors_New (column +:+ " " +:+ dupValue +:+ " already exists."),
              tc.DataConflictError)
           /\ pq.Constraint err <> "" /\ pq.Detail err <> "").
Proof.
  unfold dbhelpers.ParsePQUniqueConstraintError. split.
  - intros [->|[->|[->| ->]]]; simpl; try done.
    + by rewrite andb_false_r.
    + by destruct (_ && _).
    + rewrite andb_false_r. by destruct (_ && _).
  - destruct (pq.Constraint err) as [|c cs]; [by left|].
    destruct (pq.Detail err) as [|d ds] eqn:Hd; [by left|].
    replace (bool_decide _ && bool_decide _) with true by done.
    destruct (_ && _); [|by left].
    destruct (gostrings.Split _ _) as [|p [|q [|r l]]]; try by left.
    right. by eexists _, _.
Qed.

End UniqueConstraint.

(** ** WHERE and ORDER BY *)
Section Where.
Import golang.

Implicit Types (cols : gmap string dbhelpers.WhereColumnInfo)
  (params : gmap string string) (order : list string)
  (qv : gmap string dbhelpers.QueryValue).

Lemma parseStep_outcome cols params args qv errs key :
  dbhelpers.parseStep cols params (args, qv, errs) key
  = (args ++ option_list (dbhelpers.criterionOf cols params key),
     dbhelpers.bindValue cols params qv key,
     errs ++ option_list (dbhelpers.rejectionOf cols params key)).
Proof.
  unfold dbhelpers.parseStep, dbhelpers.bindValue, dbhelpers.criterionOf,
    dbhelpers.rejectionOf, dbhelpers.check.
  destruct (cols !! key) as [colInfo|]; simpl; [|by rewrite !app_nil_r].
  destruct (params !! key) as [urlValue|]; simpl; [|by rewrite !app_nil_r].
  destruct (dbhelpers.Checker colInfo) as [checker|]; simpl.
  - destruct (checker urlValue); simpl; by rewrite !app_nil_r.
  - by rewrite !app_nil_r.
Qed.

Lemma parse_loop cols params order : forall args qv errs,
  foldl (dbhelpers.parseStep cols params) (args, qv, errs) order
  = (args ++ omap (dbhelpers.criterionOf cols params) order,
     foldl (dbhelpers.bindValue cols params) qv order,
     errs ++ omap (dbhelpers.rejectionOf cols params) order).
Proof.
  induction order as [|key order IH]; intros args qv errs; cbn [foldl].
  - simpl. by rewrite !app_nil_r.
  - rewrite parseStep_outcome, IH, <- !app_assoc.
    destruct (dbhelpers.criterionOf cols params key) eqn:Hc,
      (dbhelpers.rejectionOf cols params key) eqn:Hr; simpl; by rewrite Hc, Hr.
Qed.

Lemma bindValue_lookup cols params qv k key :
  dbhelpers.bindValue cols params qv k !! key
  = match (if decide (k = key) then dbhelpers.criterionOf cols params key
           else None), params !! key with
    | Some _, Some urlValue => Some (dbhelpers.StringValue urlValue)
    | _, _ => qv !! key
    end.
Proof.
  unfold dbhelpers.bindValue. destruct (decide (k = key)) as [->|Hne].
  - destruct (dbhelpers.criterionOf cols params key); [|done].
    destruct (params !! key); [|done]. apply lookup_insert_eq.
  - transitivity (qv !! key); [|by destruct (params !! key)].
    destruct (dbhelpers.criterionOf cols params k); [|done].
    destruct (params !! k); [|done]. by apply lookup_insert_ne.
Qed.

Lemma bound_values_lookup cols params order : forall qv key,
  foldl (dbhelpers.bindValue cols params) qv order !! key
  = match (if decide (key ∈ order) then dbhelpers.criterionOf cols params key
           else None), params !! key with
    | Some _, Some urlValue => Some (dbhelpers.StringValue urlValue)
    | _, _ => qv !! key
    end.
Proof.
  induction order as [|k order IH]; intros qv key; cbn [foldl].
  - by rewrite decide_False by apply not_elem_of_nil.
  - rewrite IH, bindValue_lookup.
    destruct (decide (key ∈ k :: order)) as [Hin|Hnin].
    + apply elem_of_cons in Hin.
      destruct (decide (key ∈ order)) as [Ho|Ho], (decide (k = key)) as [Hk|Hk];
        try (by destruct Hin);
        by destruct (dbhelpers.criterionOf cols params key), (params !! key).
    + rewrite elem_of_cons in Hnin.
      destruct (decide (key ∈ order)) as [Ho|Ho]; [by destruct Hnin; right|].
      destruct (decide (k = key)) as [Hk|Hk]; [by destruct Hnin; left|].
      by destruct (params !! key).
Qed.

Lemma parseCriteriaAndQueryValues_outcome order cols params :
  dbhelpers.parseCriteriaAndQueryValues order cols params
  = (gostrings.Join (omap (dbhelpers.criterionOf cols params) order) " AND ",
     foldl (dbhelpers.bindValue cols params) ∅ order,
     omap (dbhelpers.rejectionOf cols params) order).
Proof. unfold dbhelpers.parseCriteriaAndQueryValues. by rewrite parse_loop. Qed.

Lemma criterionOf_value cols params key c :
  dbhelpers.criterionOf cols params key = Some c -> is_Some (params !! key).
Proof.
  unfold dbhelpers.criterionOf. destruct (cols !! key); simpl; [|done].
  destruct (params !! key); simpl; [eauto|done].
Qed.


Lemma no_criterion_no_value cols params order :
  omap (dbhelpers.criterionOf cols params) order = [] <->
  foldl (dbhelpers.bindValue cols params) ∅ order = ∅.
Proof.
  split.
  - intros Hnone. apply map_eq. intros key.
    rewrite bound_values_lookup, lookup_empty.
    destruct (decide (key ∈ order)) as [Hin|]; [|done].
    destruct (dbhelpers.criterionOf cols params key) as [c|] eqn:Hc; [|done].
    assert (c ∈ omap (dbhelpers.criterionOf cols params) order) as Hel
      by (apply list_elem_of_omap; eauto).
    rewrite Hnone in Hel. by apply elem_of_nil in Hel.
  - intros Hempty.
    destruct (omap (dbhelpers.criterionOf cols params) order) as [|c l] eqn:Hcs;
      [done|exfalso].
    assert (c ∈ omap (dbhelpers.criterionOf cols params) order) as Hel
      by (rewrite Hcs; apply list_elem_of_here).
    apply list_elem_of_omap in Hel as (key & Hin & Hc).
    destruct (criterionOf_value _ _ _ _ Hc) as [v Hv].
    pose proof (bound_values_lookup cols params order ∅ key) as Hl.
    rewrite decide_True, Hc, Hv, Hempty in Hl by done.
    by rewrite lookup_empty in Hl.
Qed.

Lemma clause_differs_from_base (base rest : string) :
  String.eqb (base +:+ " " +:+ rest) base = false.
Proof.
  apply String.eqb_neq. intros H. by apply string_app_inv_nil in H.
Qed.

Lemma clause_nonempty (base rest : string) :
  String.eqb (base +:+ " " +:+ rest) "" = false.
Proof.
  apply String.eqb_neq. destruct base; [done|]. by rewrite string_app_cons.
Qed.

(** The whole of [BuildWhereAndOrderBy]: the clauses, the query values
    and the errors, from what each key contributes. *)
Lemma BuildWhereAndOrderBy_outcome order params cols :
  dbhelpers.BuildWhereAndOrderBy order params cols
  = let criteria := omap (dbhelpers.criterionOf cols params) order in
    let queryValues := foldl (dbhelpers.bindValue cols params) ∅ order in
    let errs := omap (dbhelpers.rejectionOf cols params) order in
    match errs with
    | _ :: _ => ("", "", queryValues, errs)
    | [] =>
        (match criteria with
         | [] => ""
         | _ :: _ => dbhelpers.BaseWhere +:+ " " +:+ gostrings.Join criteria " AND "
         end,
         match params !! "orderby" ≫= (fun orderby => cols !! orderby) with
         | Some colInfo => dbhelpers.BaseOrderBy +:+ " " +:+ dbhelpers.Column colInfo
         | None => ""
         end,
         queryValues, [])
    end.
Proof.
  unfold dbhelpers.BuildWhereAndOrderBy.
  rewrite parseCriteriaAndQueryValues_outcome. cbv zeta.
  destruct (omap (dbhelpers.rejectionOf cols params) order) as [|e errs]; [|done].
  replace (bool_decide (0 < length (@nil error))%nat) with false by done.
  pose proof (no_criterion_no_value cols params order) as Hiff.
  cbn [andb]. repeat match goal with |- (_, _) = (_, _) => f_equal end.
  - destruct (omap (dbhelpers.criterionOf cols params) order) as [|c l] eqn:Hcs.
    + rewrite (proj1 Hiff eq_refl).
      replace (bool_decide (0 < size (∅ : gmap string dbhelpers.QueryValue))%nat)
        with false by done.
      by rewrite String.eqb_refl.
    + rewrite bool_decide_eq_true_2.
      * by rewrite clause_differs_from_base.
      * destruct (decide (size (foldl (dbhelpers.bindValue cols params) ∅ order) = 0%nat))
          as [Hz|]; [|lia].
        apply map_size_empty_iff in Hz. by apply Hiff in Hz.
  - destruct (params !! "orderby") as [orderby|]; [|done]. cbn [mbind option_bind].
    destruct (cols !! orderby) as [colInfo|]; [|done].
    by rewrite clause_differs_from_base.
Qed.

End Where.

Section WhereProperties.
Import golang.

Implicit Types (cols : gmap string dbhelpers.WhereColumnInfo)
  (params : gmap string string) (order : list string).

Lemma criterionOf_Some cols params key c :
  dbhelpers.criterionOf cols params key = Some c <->
  exists colInfo urlValue,
    cols !! key = Some colInfo /\ params !! key = Some urlValue
    /\ dbhelpers.check colInfo urlValue = None
    /\ c = dbhelpers.Column colInfo +:+ "=:" +:+ key.
Proof.
  unfold dbhelpers.criterionOf. split.
  - destruct (cols !! key) as [colInfo|]; [|done].
    destruct (params !! key) as [urlValue|]; [|done]. simpl.
    destruct (dbhelpers.check colInfo urlValue) eqn:Hc; [done|].
    intros [= <-]. by exists colInfo, urlValue.
  - intros (colInfo & urlValue & -> & -> & Hc & ->). simpl. by rewrite Hc.
Qed.

Lemma rejectionOf_Some cols params key e :
  dbhelpers.rejectionOf cols params key = Some e <->
  exists colInfo urlValue err,
    cols !! key = Some colInfo /\ params !! key = Some urlValue
    /\ dbhelpers.check colInfo urlValue = Some err
    /\ e = errors_New (key +:+ " " +:+ Error err).
Proof.
  unfold dbhelpers.rejectionOf. split.
  - destruct (cols !! key) as [colInfo|]; [|done].
    destruct (params !! key) as [urlValue|]; [|done]. simpl.
    destruct (dbhelpers.check colInfo urlValue) as [err|] eqn:Hc; [|done].
    intros [= <-]. by exists colInfo, urlValue, err.
  - intros (colInfo & urlValue & err & -> & -> & Hc & ->). simpl. by rewrite Hc.
Qed.

(** X5: the query values [BuildWhereAndOrderBy] returns bind exactly the
    keys that the visit of the column map reaches, that have a column, a
    value in the request and a checker that accepts it (or none), each to
    the value of the request; in particular they do not depend on the
    order of the visit. *)
Theorem query_values_are_the_accepted_parameters order params cols key x :
  (dbhelpers.BuildWhereAndOrderBy order params cols).1.2 !! key = Some x <->
  key ∈ order
  /\ exists colInfo urlValue,
       cols !! key = Some colInfo /\ params !! key = Some urlValue
       /\ dbhelpers.check colInfo urlValue = None
       /\ x = dbhelpers.StringValue urlValue.
Proof.
  rewrite BuildWhereAndOrderBy_outcome. cbv zeta.
  assert ((match omap (dbhelpers.rejectionOf cols params) order with
           | [] => _ | _ :: _ => _ end).1.2
          = foldl (dbhelpers.bindValue cols params) ∅ order) as ->
    by (by destruct (omap _ order)).
  rewrite bound_values_lookup, lookup_empty.
  destruct (decide (key ∈ order)) as [Hin|Hnin].
  2: { split; [by destruct (params !! key)|by intros [? _]]. }
  destruct (dbhelpers.criterionOf cols params key) as [c|] eqn:Hc.
  - apply criterionOf_Some in Hc as (colInfo & urlValue & Hci & Hp & Hchk & _).
    rewrite Hp. split.
    + intros [= <-]. split; [done|]. by exists colInfo, urlValue.
    + intros (_ & colInfo' & urlValue' & _ & Hp' & _ & ->). congruence.
  - split; [by destruct (params !! key)|].
    intros (_ & colInfo & urlValue & Hci & Hp & Hchk & _).
    assert (dbhelpers.criterionOf cols params key
            = Some (dbhelpers.Column colInfo +:+ "=:" +:+ key)) as Hsome
      by (apply criterionOf_Some; by exists colInfo, urlValue).
    congruence.
Qed.


(** X6: when a checker refuses the value of a parameter,
    [BuildWhereAndOrderBy] returns empty WHERE and ORDER BY clauses, leaves
    the parameter out of the query values, and returns one error per
    refused parameter, "key" followed by the checker's message. *)
Theorem refused_parameter_empties_the_clauses order params cols key colInfo urlValue err :
  key ∈ order ->
  cols !! key = Some colInfo ->
  params !! key = Some urlValue ->
  dbhelpers.check colInfo urlValue = Some err ->
  exists queryValues errs,
    dbhelpers.BuildWhereAndOrderBy order params cols = ("", "", queryValues, errs)
    /\ errors_New (key +:+ " " +:+ Error err) ∈ errs
    /\ queryValues !! key = None
    /\ forall e, e ∈ errs <->
         exists key' colInfo' urlValue' err',
           key' ∈ order /\ cols !! key' = Some colInfo'
           /\ params !! key' = Some urlValue'
           /\ dbhelpers.check colInfo' urlValue' = Some err'
           /\ e = errors_New (key' +:+ " " +:+ Error err').
Proof.
  intros Hin Hci Hp Hchk.
  assert (dbhelpers.rejectionOf cols params key
          = Some (errors_New (key +:+ " " +:+ Error err))) as Hrej
    by (apply rejectionOf_Some; by exists colInfo, urlValue, err).
  assert (errors_New (key +:+ " " +:+ Error err)
          ∈ omap (dbhelpers.rejectionOf cols params) order) as Hel
    by (apply list_elem_of_omap; eauto).
  rewrite BuildWhereAndOrderBy_outcome. cbv zeta.
  destruct (omap (dbhelpers.rejectionOf cols params) order) as [|e0 errs] eqn:Herrs;
    [by apply elem_of_nil in Hel|].
  eexists _, _. split; [reflexivity|]. split; [exact Hel|]. split.
  - rewrite bound_values_lookup, lookup_empty.
    assert (dbhelpers.criterionOf cols params key = None) as ->.
    { unfold dbhelpers.criterionOf. rewrite Hci. simpl. rewrite Hp. simpl.
      by rewrite Hchk. }
    by destruct (decide (key ∈ order)).
  - intros e. rewrite <- Herrs, list_elem_of_omap. split.
    + intros (key' & Hin' & Hr).
      apply rejectionOf_Some in Hr as (colInfo' & urlValue' & err' & ? & ? & ? & ?).
      by exists key', colInfo', urlValue', err'.
    + intros (key' & colInfo' & urlValue' & err' & Hin' & ? & ? & ? & ?).
      exists key'. split; [done|]. apply rejectionOf_Some.
      by exists colInfo', urlValue', err'.
Qed.

Lemma no_rejection cols params order :
  (forall key colInfo urlValue,
     key ∈ order -> cols !! key = Some colInfo -> params !! key = Some urlValue ->
     dbhelpers.check colInfo urlValue = None) ->
  omap (dbhelpers.rejectionOf cols params) order = [].
Proof.
  intros Hok.
  destruct (omap (dbhelpers.rejectionOf cols params) order) as [|e errs] eqn:Herrs;
    [done|exfalso].
  assert (e ∈ omap (dbhelpers.rejectionOf cols params) order) as Hel
    by (rewrite Herrs; apply list_elem_of_here).
  apply list_elem_of_omap in Hel as (key & Hin & Hr).
  apply rejectionOf_Some in Hr as (colInfo & urlValue & err & Hci & Hp & Hchk & _).
  by rewrite (Hok _ _ _ Hin Hci Hp) in Hchk.
Qed.

(** X7: when no checker refuses a value, [BuildWhereAndOrderBy] returns no
    error; the WHERE clause is empty when no parameter adds a criterion
    and otherwise "WHERE" on a new line followed by the criteria
    "column=:key" joined by " AND "; the ORDER BY clause names the column
    of the parameter that "orderby" designates, and is empty when there
    is no "orderby" or it designates no column. *)
Theorem clauses_of_accepted_parameters order params cols :
  (forall key colInfo urlValue,
     key ∈ order -> cols !! key = Some colInfo -> params !! key = Some urlValue ->
     dbhelpers.check colInfo urlValue = None) ->
  exists queryValues,
    dbhelpers.BuildWhereAndOrderBy order params cols
    = (match omap (dbhelpers.criterionOf cols params) order with
       | [] => ""
       | criteria =>
           dbhelpers.BaseWhere +:+ " " +:+ gostrings.Join criteria " AND "
       end,
       match params !! "orderby" ≫= (fun orderby => cols !! orderby) with
       | Some colInfo => dbhelpers.BaseOrderBy +:+ " " +:+ dbhelpers.Column colInfo
       | None => ""
       end,
       queryValues, []).
Proof.
  intros Hok. rewrite BuildWhereAndOrderBy_outcome. cbv zeta.
  rewrite (no_rejection _ _ _ Hok). eexists.
  by destruct (omap (dbhelpers.criterionOf cols params) order).
Qed.

(** X8: the text of the clauses never contains a value of the request:
    two requests that give values to the same visited keys and have the
    same "orderby", all their values accepted, get the same WHERE and
    ORDER BY clauses. *)
Theorem sql_text_is_independent_of_the_values order params1 params2 cols :
  (forall key, key ∈ order ->
     (is_Some (params1 !! key) <-> is_Some (params2 !! key))) ->
  params1 !! "orderby" = params2 !! "orderby" ->
  (forall key colInfo urlValue,
     key ∈ order -> cols !! key = Some colInfo -> params1 !! key = Some urlValue ->
     dbhelpers.check colInfo urlValue = None) ->
  (forall key colInfo urlValue,
     key ∈ order -> cols !! key = Some colInfo -> params2 !! key = Some urlValue ->
     dbhelpers.check colInfo urlValue = None) ->
  (dbhelpers.BuildWhereAndOrderBy order params1 cols).1.1
  = (dbhelpers.BuildWhereAndOrderBy order params2 cols).1.1.
Proof.
  intros Hdom Horder Hok1 Hok2.
  rewrite !BuildWhereAndOrderBy_outcome. cbv zeta.
  rewrite (no_rejection _ _ _ Hok1), (no_rejection _ _ _ Hok2), Horder.
  assert (omap (dbhelpers.criterionOf cols params1) order
          = omap (dbhelpers.criterionOf cols params2) order) as ->; [|done].
  clear Horder. induction order as [|key order IH]; [done|].
  assert (dbhelpers.criterionOf cols params1 key
          = dbhelpers.criterionOf cols params2 key) as Hkey.
  { unfold dbhelpers.criterionOf.
    destruct (cols !! key) as [colInfo|] eqn:Hci; [|done]. simpl.
    pose proof (Hdom key (list_elem_of_here _ _)) as Hk.
    destruct (params1 !! key) as [v1|] eqn:H1, (params2 !! key) as [v2|] eqn:H2;
      simpl.
    - rewrite (Hok1 key colInfo v1) by (try apply list_elem_of_here; done).
      by rewrite (Hok2 key colInfo v2) by (try apply list_elem_of_here; done).
    - destruct (proj1 Hk) as [? ?]; [eauto|done].
    - destruct (proj2 Hk) as [? ?]; [eauto|done].
    - done. }
  cbn [omap list_omap]. rewrite Hkey, IH; [done|..].
  - intros k Hin. apply Hdom. by apply list_elem_of_further.
  - intros k ci v Hin. apply Hok1. by apply list_elem_of_further.
  - intros k ci v Hin. apply Hok2. by apply list_elem_of_further.
Qed.

(** X9: the order in which Go visits the column map changes only the
    order of the criteria and of the errors: the query values and the
    ORDER BY clause are the same, the errors are the same up to their
    order, and the WHERE clause is empty for one order exactly when it is
    for the other. *)
Theorem iteration_order_only_reorders order order' params cols :
  order ≡ₚ order' ->
  (dbhelpers.BuildWhereAndOrderBy order params cols).1.2
  = (dbhelpers.BuildWhereAndOrderBy order' params cols).1.2
  /\ (dbhelpers.BuildWhereAndOrderBy order params cols).2
     ≡ₚ (dbhelpers.BuildWhereAndOrderBy order' params cols).2
  /\ (dbhelpers.BuildWhereAndOrderBy order params cols).1.1.2
     = (dbhelpers.BuildWhereAndOrderBy order' params cols).1.1.2
  /\ ((dbhelpers.BuildWhereAndOrderBy order params cols).1.1.1 = "" <->
      (dbhelpers.BuildWhereAndOrderBy order' params cols).1.1.1 = "").
Proof.
  intros Hperm. rewrite !BuildWhereAndOrderBy_outcome. cbv zeta.
  assert (foldl (dbhelpers.bindValue cols params) ∅ order
          = foldl (dbhelpers.bindValue cols params) ∅ order') as Hqv.
  { apply map_eq. intros key. rewrite !bound_values_lookup.
    destruct (decide (key ∈ order)) as [Hin|Hnin].
    - by rewrite decide_True by (by rewrite <- Hperm).
    - by rewrite decide_False by (by rewrite <- Hperm). }
  pose proof (omap_Permutation (dbhelpers.rejectionOf cols params) _ _ Hperm) as He.
  pose proof (omap_Permutation (dbhelpers.criterionOf cols params) _ _ Hperm) as Hc.
  destruct (omap (dbhelpers.rejectionOf cols params) order) as [|e errs],
    (omap (dbhelpers.rejectionOf cols params) order') as [|e' errs'];
    try (by apply Permutation_nil_cons in He);
    try (by symmetry in He; apply Permutation_nil_cons in He);
    simpl; rewrite Hqv; (split; [done|]); (split; [done|]); (split; [done|]);
    [|done].
  destruct (omap (dbhelpers.criterionOf cols params) order) as [|c cs],
    (omap (dbhelpers.criterionOf cols params) order') as [|c' cs'];
    try (by apply Permutation_nil_cons in Hc);
    try (by symmetry in Hc; apply Permutation_nil_cons in Hc); done.
Qed.

(** X10: [AddTenancyCheck] applied to the WHERE clause and the query
    values of [BuildWhereAndOrderBy] gives a clause that starts with
    "WHERE " on a new line and ends with the tenancy predicate of the
    column; the query values bind accessibleTenants to the tenant ids,
    even when the request had a parameter of that name, and keep every
    other binding. *)
Theorem tenancy_check_is_always_added order params cols tenantColumnName tenantIDs :
  let built := dbhelpers.BuildWhereAndOrderBy order params cols in
  let checked :=
    dbhelpers.AddTenancyCheck built.1.1.1 built.1.2 tenantColumnName tenantIDs in
  gostrings.HasPrefix checked.1 (dbhelpers.BaseWhere +:+ " ") = true
  /\ gostrings.HasSuffix checked.1 (dbhelpers.tenancyFilter tenantColumnName) = true
  /\ checked.2 !! "accessibleTenants" = Some (dbhelpers.Int64Array tenantIDs)
  /\ forall key, key <> "accessibleTenants" -> checked.2 !! key = built.1.2 !! key.
Proof.
  intros built checked. subst checked. unfold dbhelpers.AddTenancyCheck.
  cbn [fst snd]. split; [|split; [|split]].
  - assert (built.1.1.1 = ""
            \/ exists criteria,
                 built.1.1.1 = dbhelpers.BaseWhere +:+ " " +:+ criteria) as [->|[cs ->]].
    { subst built. rewrite BuildWhereAndOrderBy_outcome. cbv zeta.
      destruct (omap (dbhelpers.rejectionOf cols params) order); [|by left].
      destruct (omap (dbhelpers.criterionOf cols params) order); [by left|].
      right. by eexists. }
    + change (String.eqb "" "") with true. cbn iota.
      rewrite <- (string_app_assoc dbhelpers.BaseWhere " "). apply HasPrefix_app.
    + rewrite clause_nonempty.
      rewrite <- (string_app_assoc dbhelpers.BaseWhere " " cs), string_app_assoc.
      apply HasPrefix_app.
  - unfold dbhelpers.tenancyFilter.
    destruct (String.eqb built.1.1.1 "").
    + rewrite <- (string_app_assoc dbhelpers.BaseWhere " "). apply HasSuffix_app.
    + rewrite <- (string_app_assoc built.1.1.1 " AND "). apply HasSuffix_app.
  - apply lookup_insert_eq.
  - intros key Hne. by apply lookup_insert_ne.
Qed.

End WhereProperties.

(** ** The single-row readers, when a row is found *)
Section ReadersFound.
Import golang.

(** X1: each single-row reader ([GetParam], [GetGlobalParam],
    [GetDSNameFromID], [GetDSNameAndCDNFromID], [GetProfileNameFromID],
    [GetProfileIDFromName]) returns found = true exactly when its query
    returned a row, and then with that row's value and a nil error;
    [GetGlobalParam] reads the parameter of the config file "global". *)
Theorem found_means_a_row_was_read (tx : sql.Tx) (name configFile : string) (id : Z) :
  (forall v, sql.select_parameter_value tx name configFile = inr v <->
             dbhelpers.GetParam tx name configFile = (v, true, None))
  /\ (forall v, sql.select_parameter_value tx name "global" = inr v <->
                dbhelpers.GetGlobalParam tx name = (v, true, None))
  /\ (forall v, sql.select_ds_xml_id tx id = inr v <->
                dbhelpers.GetDSNameFromID tx id = (v, true, None))
  /\ (forall v c, sql.select_ds_xml_id_and_cdn tx id = inr (v, c) <->
                  dbhelpers.GetDSNameAndCDNFromID tx id = (v, c, true, None))
  /\ (forall v, sql.select_profile_name tx id = inr v <->
                dbhelpers.GetProfileNameFromID id tx = (v, true, None))
  /\ (forall v, sql.select_profile_id tx name = inr v <->
                dbhelpers.GetProfileIDFromName name tx = (v, true, None))
  /\ ((dbhelpers.GetParam tx name configFile).1.2 = true ->
      (dbhelpers.GetParam tx name configFile).2 = None)
  /\ ((dbhelpers.GetDSNameAndCDNFromID tx id).1.2 = true ->
      (dbhelpers.GetDSNameAndCDNFromID tx id).2 = None).
Proof.
  unfold dbhelpers.GetGlobalParam, dbhelpers.GetParam, dbhelpers.GetDSNameFromID,
    dbhelpers.GetDSNameAndCDNFromID, dbhelpers.GetProfileNameFromID,
    dbhelpers.GetProfileIDFromName.
  repeat split.
  all: try (intros ->; reflexivity).
  - destruct (sql.select_parameter_value tx name configFile) as [err|v'];
      [by case_decide|by intros [= ->]].
  - destruct (sql.select_parameter_value tx name "global") as [err|v'];
      [by case_decide|by intros [= ->]].
  - destruct (sql.select_ds_xml_id tx id) as [err|v'];
      [by case_decide|by intros [= ->]].
  - destruct (sql.select_ds_xml_id_and_cdn tx id) as [err|[v' c']];
      [by case_decide|by intros [= -> ->]].
  - destruct (sql.select_profile_name tx id) as [err|v'];
      [by case_decide|by intros [= ->]].
  - destruct (sql.select_profile_id tx name) as [err|v'];
      [by case_decide|by intros [= ->]].
  - destruct (sql.select_parameter_value tx name configFile) as [err|v'];
      [by case_decide|done].
  - destruct (sql.select_ds_xml_id_and_cdn tx id) as [err|[v' c']];
      [by case_decide|done].
Qed.

End ReadersFound.

(** ** More on the rotation *)
Section RotationMore.
Import golang.
Context `{C : deliveryservice.Collaborators}.

Local Abbreviation ttlOf ttlSeconds := (time.mul (time.Duration ttlSeconds) time.Second).
Local Abbreviation expOf days := (time.mul (time.mul (time.Duration days) time.Hour) 24).

(** What a failing loop reports. *)
Lemma createDSKeys_error tx cfg matchLists cdnDomain cdnKeys kExp zExp ttl
    (dses : list cdn.CDNDS) :
  forall newKeys w e w',
    cdn.createDSKeys tx cfg matchLists cdnDomain cdnKeys kExp zExp ttl dses newKeys w
    = (inl e, w') ->
    (exists ds, ds ∈ dses /\ cdn.eligible ds = true
                /\ matchLists !! cdn.Name ds = None
                /\ e = errors_New ("no regex match list found for delivery service '"
                                   +:+ cdn.Name ds))
    \/ exists m, e = errors_New ("creating delivery service DNSSEC keys: " +:+ m).
Proof.
  induction dses as [|ds dses IH]; simpl; intros newKeys w e w' H; [discriminate|].
  destruct (negb _ && negb _) eqn:Hskip.
  { destruct (IH _ _ _ _ H) as [(ds' & ? & ?)|?]; [left|by right].
    exists ds'. split; [by apply list_elem_of_further|done]. }
  destruct (matchLists !! cdn.Name ds) as [matchlist|] eqn:Hml.
  - unfold cdn.bind, cdn.wrap, cdn.on_keygen in H.
    destruct (deliveryservice.CreateDNSSECKeys _ _ _ _ _ _ _ _ _ _)
      as [[err|dsKeys] g] eqn:Hmint.
    + injection H as <- <-. right. by eexists.
    + destruct (IH _ _ _ _ H) as [(ds' & ? & ?)|?]; [left|by right].
      exists ds'. split; [by apply list_elem_of_further|done].
  - injection H as <- <-. left. exists ds. split; [apply list_elem_of_here|].
    split; [unfold cdn.eligible; by rewrite Hskip|done].
Qed.


(** X11: a rotation that returns an error has written nothing to the
    key store and has left the transaction and the change log alone; its
    message names the step that failed: reading the old keys, the bundle
    missing, reading the delivery services, reading the match lists, a
    match list missing, the key factory, or the write. *)
Theorem failed_rotation_reports_the_step reader tx cfg cdnName ttlSeconds kExpDays
    zExpDays eff (w : cdn.World) e w' :
  cdn.generateStoreDNSSECKeysFrom reader tx cfg cdnName ttlSeconds kExpDays zExpDays
    eff w = (Some e, w') ->
  riaksvc.objects (cdn.riak w') = riaksvc.objects (cdn.riak w)
  /\ cdn.heap w' = cdn.heap w
  /\ cdn.changelog w' = cdn.changelog w
  /\ ((exists m, e = errors_New ("getting old dnssec keys: " +:+ m))
      \/ (e = errors_New "getting DNSSec keys from Riak: no DNSSec keys for CDN"
          /\ cdn.stored w cdnName = None)
      \/ (exists m, e = errors_New ("getting cdn delivery services: " +:+ m))
      \/ (exists m, e = errors_New ("getting delivery service matchlists: " +:+ m))
      \/ (exists xmlID,
            e = errors_New ("no regex match list found for delivery service '"
                            +:+ xmlID))
      \/ (exists m, e = errors_New ("creating delivery service DNSSEC keys: " +:+ m))
      \/ (exists m, e = errors_New ("putting Riak DNSSEC CDN keys: " +:+ m))).
Proof.
  unfold cdn.generateStoreDNSSECKeysFrom, cdn.rotate, cdn.returned_error, cdn.bind,
    cdn.wrap, cdn.on_riak, cdn.pure_call, cdn.fail, cdn.as_result.
  destruct (riaksvc.GetDNSSECKeys _ _ _ _) as [[e0|[oldKeys found]] c1] eqn:Hget;
    apply GetDNSSECKeys_reads in Hget as [Hobj Hold].
  { intros [= <- <-]. repeat split; [done|]. left. by eexists. }
  specialize (Hold _ _ eq_refl).
  destruct found.
  2: { intros [= <- <-]. repeat split; [done|]. right. by left. }
  destruct (reader tx cdnName) as [e0|[dses cdnDomain]].
  { intros [= <- <-]. repeat split; [done|]. do 2 right. left. by eexists. }
  destruct (deliveryservice.GetDeliveryServicesMatchLists _ _) as [e0|matchLists].
  { intros [= <- <-]. repeat split; [done|]. do 3 right. left. by eexists. }
  simpl.
  destruct (cdn.createDSKeys _ _ _ _ _ _ _ _ _ _ _) as [[e0|newKeys] w1] eqn:Hloop;
    pose proof (createDSKeys_frame _ _ _ _ _ _ _ _ _ _ _ _ _ Hloop) as (Hr & Hh & Hl);
    simpl in Hr, Hh, Hl.
  { intros [= <- <-]. rewrite Hr. repeat split; [done..|].
    apply createDSKeys_error in Hloop as [(ds & _ & _ & _ & ->)|[m ->]].
    - do 4 right. left. by eexists.
    - do 5 right. left. by eexists. }
  destruct (riaksvc.PutDNSSECKeys _ _ _ _ _) as [[e0|] c2] eqn:Hput; [|discriminate].
  apply PutDNSSECKeys_writes in Hput. intros [= <- <-]. simpl.
  rewrite Hput, Hr. repeat split; [done..|]. do 6 right. by eexists.
Qed.

Lemma failed_rotation_frame reader tx cfg cdnName ttlSeconds kExpDays zExpDays eff
    (w : cdn.World) e w' :
  cdn.generateStoreDNSSECKeysFrom reader tx cfg cdnName ttlSeconds kExpDays zExpDays
    eff w = (Some e, w') ->
  riaksvc.objects (cdn.riak w') = riaksvc.objects (cdn.riak w)
  /\ cdn.heap w' = cdn.heap w
  /\ cdn.changelog w' = cdn.changelog w.
Proof.
  unfold cdn.generateStoreDNSSECKeysFrom, cdn.rotate, cdn.returned_error, cdn.bind,
    cdn.wrap, cdn.on_riak, cdn.pure_call, cdn.fail, cdn.as_result.
  destruct (riaksvc.GetDNSSECKeys _ _ _ _) as [[e0|[oldKeys found]] c1] eqn:Hget;
    apply GetDNSSECKeys_reads in Hget as [Hobj _].
  { by intros [= <- <-]. }
  destruct found; [|by intros [= <- <-]].
  destruct (reader tx cdnName) as [e0|[dses cdnDomain]]; [by intros [= <- <-]|].
  destruct (deliveryservice.GetDeliveryServicesMatchLists _ _) as [e0|matchLists];
    [by intros [= <- <-]|].
  simpl.
  destruct (cdn.createDSKeys _ _ _ _ _ _ _ _ _ _ _) as [[e0|newKeys] w1] eqn:Hloop;
    pose proof (createDSKeys_frame _ _ _ _ _ _ _ _ _ _ _ _ _ Hloop) as (Hr & Hh & Hl);
    simpl in Hr, Hh, Hl.
  { intros [= <- <-]. by rewrite Hr. }
  destruct (riaksvc.PutDNSSECKeys _ _ _ _ _) as [[e0|] c2] eqn:Hput; [|discriminate].
  apply PutDNSSECKeys_writes in Hput. intros [= <- <-]. simpl.
  by rewrite Hput, Hr.
Qed.

(** X12: whether it succeeds or fails, a rotation for one CDN leaves the
    bundle of every other CDN, and every other object of the key store,
    as it was. *)
Theorem rotation_leaves_other_bundles reader tx cfg cdnName ttlSeconds kExpDays
    zExpDays eff (w : cdn.World) r w' :
  cdn.generateStoreDNSSECKeysFrom reader tx cfg cdnName ttlSeconds kExpDays zExpDays
    eff w = (r, w') ->
  (forall other, other <> cdnName -> cdn.stored w' other = cdn.stored w other)
  /\ (forall key, key <> (riaksvc.DNSSECKeysBucket, cdnName) ->
        riaksvc.objects (cdn.riak w') !! key = riaksvc.objects (cdn.riak w) !! key).
Proof.
  intros Hrun.
  assert (forall key, key <> (riaksvc.DNSSECKeysBucket, cdnName) ->
            riaksvc.objects (cdn.riak w') !! key
            = riaksvc.objects (cdn.riak w) !! key) as Hframe.
  { intros key Hne. destruct r as [e|].
    - apply rotation_failure in Hrun as [-> _]. done.
    - apply rotation_success in Hrun
        as (?&?&?&?&?&?&?&_&_&_&_&_&->&_). by apply lookup_insert_ne. }
  split; [|exact Hframe].
  intros other Hne. apply Hframe. congruence.
Qed.

(** X13: [getCDNDeliveryServices] returns the query's error wrapped, the
    empty list with an empty domain when the CDN has no delivery service,
    and otherwise fails on the first row with a scan error: the scan is
    given [dsTypeStr] instead of its address. *)
Theorem getCDNDeliveryServices_outcome tx cdnName :
  match sql.select_cdn_delivery_services tx cdnName with
  | inl err =>
      cdn.getCDNDeliveryServices tx cdnName
      = inl (errors_New ("getting cdn delivery services: " +:+ Error err))
  | inr [] => cdn.getCDNDeliveryServices tx cdnName = inr ([], "")
  | inr (_ :: _) =>
      exists m,
        cdn.getCDNDeliveryServices tx cdnName
        = inl (errors_New ("scanning cdn delivery services: " +:+ m))
        /\ Contains m "destination not a pointer" = true
  end.
Proof.
  unfold cdn.getCDNDeliveryServices.
  destruct (sql.select_cdn_delivery_services tx cdnName) as [err|[|row rows]];
    [done..|].
  eexists. split; reflexivity.
Qed.

(** X14: when the CDN has at least one delivery service,
    [generateStoreDNSSECKeys] returns an error and writes nothing. *)
Theorem rotation_fails_on_any_delivery_service tx cfg cdnName ttlSeconds kExpDays
    zExpDays eff (w : cdn.World) row rows :
  sql.select_cdn_delivery_services tx cdnName = inr (row :: rows) ->
  exists e w',
    cdn.generateStoreDNSSECKeys tx cfg cdnName ttlSeconds kExpDays zExpDays eff w
    = (Some e, w')
    /\ riaksvc.objects (cdn.riak w') = riaksvc.objects (cdn.riak w).
Proof.
  intros Hrows.
  destruct (cdn.generateStoreDNSSECKeys tx cfg cdnName ttlSeconds kExpDays zExpDays
              eff w) as [[e|] w'] eqn:Hrun.
  - exists e, w'. split; [done|]. by apply rotation_failure in Hrun as [? _].
  - exfalso. apply rotation_success in Hrun
      as (?&dses&dom&?&?&?&?&_&Hlist&_).
    apply getCDNDeliveryServices_returns in Hlist as [Hnil _]. congruence.
Qed.

(** X15: when [generateStoreDNSSECKeys] returns nil, the CDN has no
    delivery service and the bundle written holds one key set only, the
    CDN's own after demotion: the other key sets of the old bundle are
    not carried over. *)
Theorem successful_rotation_writes_the_apex_only tx cfg cdnName ttlSeconds kExpDays
    zExpDays eff (w w' : cdn.World) :
  cdn.generateStoreDNSSECKeys tx cfg cdnName ttlSeconds kExpDays zExpDays eff w
  = (None, w') ->
  sql.select_cdn_delivery_services tx cdnName = inr []
  /\ exists oldKeys,
       cdn.stored w cdnName = Some oldKeys
       /\ cdn.stored w' cdnName
          = Some {[ cdnName := cdn.demoteCDNKeys oldKeys cdnName (ttlOf ttlSeconds) eff ]}.
Proof.
  intros Hrun. apply rotation_success in Hrun
    as (oldKeys&dses&dom&ml&newKeys&w0&w1&Hold&Hlist&_&Hloop&Hst&_).
  apply getCDNDeliveryServices_returns in Hlist as (Hnil & -> & ->).
  split; [done|]. exists oldKeys. split; [done|].
  simpl in Hloop. injection Hloop as <- _. exact Hst.
Qed.

(** X16: the demotion lengthens each non-empty key list of the CDN by one
    and leaves an empty list empty; when the old bundle has no key set
    for the CDN, the result is the empty key set. *)
Theorem demotion_length oldKeys cdnName ttl eff :
  let apex := default tc.DNSSECKeySet_zero (oldKeys !! cdnName) in
  let demoted := cdn.demoteCDNKeys oldKeys cdnName ttl eff in
  length (tc.KSK demoted)
  = (length (tc.KSK apex) + (if tc.KSK apex is [] then 0 else 1))%nat
  /\ length (tc.ZSK demoted)
     = (length (tc.ZSK apex) + (if tc.ZSK apex is [] then 0 else 1))%nat
  /\ (oldKeys !! cdnName = None -> demoted = tc.DNSSECKeySet_zero).
Proof.
  intros apex demoted. subst apex demoted.
  destruct (oldKeys !! cdnName) as [apex|] eqn:Hapex.
  - rewrite (demoteCDNKeys_Some _ _ _ _ _ Hapex).
    change (default tc.DNSSECKeySet_zero (Some apex)) with apex. cbn [tc.KSK tc.ZSK].
    split; [|split; [|done]].
    + destruct (tc.KSK apex) as [|k l]; [by rewrite appendDemotedHead_nil|].
      rewrite appendDemotedHead_cons, length_app. simpl. lia.
    + destruct (tc.ZSK apex) as [|k l]; [by rewrite appendDemotedHead_nil|].
      rewrite appendDemotedHead_cons, length_app. simpl. lia.
  - unfold cdn.demoteCDNKeys. by rewrite Hapex.
Qed.

(** X17: a second demotion copies the same head again: after two
    rotations the KSK list is the original list followed by two demoted
    copies of its head, the first with the ttl and effective date of the
    first rotation, the second with those of the second. *)
Theorem demotion_twice oldKeys cdnName ttl1 eff1 ttl2 eff2 apex head keys
    (bundle : tc.DNSSECKeys) :
  oldKeys !! cdnName = Some apex ->
  tc.KSK apex = head :: keys ->
  tc.KSK (cdn.demoteCDNKeys
            (<[cdnName := cdn.demoteCDNKeys oldKeys cdnName ttl1 eff1]> bundle)
            cdnName ttl2 eff2)
  = tc.KSK apex ++ [cdn.demote ttl1 eff1 head; cdn.demote ttl2 eff2 head].
Proof.
  intros Hapex Hk.
  rewrite (demoteCDNKeys_Some _ _ _ _ _ (lookup_insert_eq _ _ _)).
  rewrite (demoteCDNKeys_Some _ _ _ _ _ Hapex). simpl.
  rewrite Hk, appendDemotedHead_cons.
  rewrite <- app_comm_cons, appendDemotedHead_cons.
  rewrite app_comm_cons. by rewrite <- app_assoc.
Qed.

(** X19: the duration computed for an expiry in days,
    [time.Duration(days) * time.Hour * 24], is days * 86400 * 10^9
    nanoseconds up to 106751 days; from 106752 to 213503 days it has
    wrapped around and is negative. *)
Theorem expiry_duration (days : Z) :
  let exp := time.mul (time.mul (time.Duration days) time.Hour) 24 in
  ((0 <= days <= 106751)%Z -> exp = (days * 86400000000000)%Z)
  /\ ((106752 <= days <= 213503)%Z ->
      exp = (days * 86400000000000 - 2 ^ 64)%Z /\ (exp < 0)%Z).
Proof.
  cbv zeta.
  unfold time.mul, time.Duration, time.Hour, time.Second, int64.
  change (2 ^ 63)%Z with 9223372036854775808%Z.
  change (2 ^ 64)%Z with 18446744073709551616%Z.
  assert (forall z, (0 <= z < 9223372036854775808)%Z ->
            ((z + 9223372036854775808) mod 18446744073709551616
             - 9223372036854775808 = z)%Z) as Hsmall.
  { intros z Hz. rewrite Z.mod_small by lia. lia. }
  split; intros Hd.
  - rewrite (Hsmall days) by lia.
    rewrite (Hsmall (days * _)%Z) by lia.
    rewrite Hsmall by lia. lia.
  - rewrite (Hsmall days) by lia.
    rewrite (Hsmall (days * _)%Z) by lia.
    assert (((days * (3600 * 1000000000) * 24 + 9223372036854775808)
             mod 18446744073709551616
             = days * 86400000000000 - 9223372036854775808)%Z) as ->.
    { symmetry. apply Z.mod_unique with (q := 1%Z); lia. }
    lia.
Qed.

End RotationMore.

(** ** The rotation as [getCDNDeliveryServices] feeds it *)
Section AsRead.
Import golang.
Context `{C : deliveryservice.Collaborators}.

(** C5: when the DB lists for the CDN a delivery service of type HTTP or
    DNS and the match lists it returns have no entry for it,
    [generateStoreDNSSECKeys] returns an error and writes nothing: the key
    store holds for every CDN what it held before.  (As the function is
    written the error is already that of [rows.Scan] at line 170, raised on
    the first row.)  And the loop of lines 119-137, run with these match
    lists on any list that holds that delivery service, returns an error
    and leaves the key store alone: the missing match list of lines
    124-127, unless the key factory failed on an earlier delivery
    service. *)
Theorem missing_match_list_stops_the_rotation tx cfg cdnName ttlSeconds kExpDays
    zExpDays eff (w : cdn.World) rows row matchLists :
  sql.select_cdn_delivery_services tx cdnName = inr rows ->
  row ∈ rows ->
  deliveryservice.IsHTTP (deliveryservice.DSTypeFromString (sql.type_name row))
  || deliveryservice.IsDNS (deliveryservice.DSTypeFromString (sql.type_name row))
  = true ->
  deliveryservice.GetDeliveryServicesMatchLists (sql.xml_id <$> rows) tx
  = inr matchLists ->
  matchLists !! sql.xml_id row = None ->
  (exists e w',
     cdn.generateStoreDNSSECKeys tx cfg cdnName ttlSeconds kExpDays zExpDays eff w
     = (Some e, w')
     /\ riaksvc.objects (cdn.riak w') = riaksvc.objects (cdn.riak w)
     /\ forall name, cdn.stored w' name = cdn.stored w name)
  /\ (forall cdnDomain cdnKeys kExp zExp ttl (dses : list cdn.CDNDS) ds newKeys w0,
        ds ∈ dses ->
        cdn.Name ds = sql.xml_id row ->
        deliveryservice.IsHTTP (cdn.Type_ ds) || deliveryservice.IsDNS (cdn.Type_ ds)
        = true ->
        exists e w1,
          cdn.createDSKeys tx cfg matchLists cdnDomain cdnKeys kExp zExp ttl dses
            newKeys w0 = (inl e, w1)
          /\ cdn.riak w1 = cdn.riak w0
          /\ ((exists ds', ds' ∈ dses /\ matchLists !! cdn.Name ds' = None
                 /\ e = errors_New ("no regex match list found for delivery service '"
                                    +:+ cdn.Name ds'))
              \/ exists m,
                   e = errors_New ("creating delivery service DNSSEC keys: " +:+ m))).
Proof.
  intros Hrows Hin _ _ Hnone. split.
  - destruct (cdn.generateStoreDNSSECKeys tx cfg cdnName ttlSeconds kExpDays zExpDays
                eff w) as [[e|] w'] eqn:Hrun.
    + apply rotation_failure in Hrun as [Hobj _].
      exists e, w'. split; [done|]. split; [done|].
      intros name. unfold cdn.stored. by rewrite Hobj.
    + exfalso. apply rotation_success in Hrun as (?&?&?&?&?&?&?&_&Hlist&_).
      apply getCDNDeliveryServices_returns in Hlist as [Hnil _].
      rewrite Hrows in Hnil. injection Hnil as ->. by apply elem_of_nil in Hin.
  - intros cdnDomain cdnKeys kExp zExp ttl dses ds newKeys w0 Hds Hname He.
    destruct (cdn.createDSKeys tx cfg matchLists cdnDomain cdnKeys kExp zExp ttl dses
                newKeys w0) as [[e|newKeys'] w1] eqn:Hloop.
    + exists e, w1. split; [done|].
      split; [by apply createDSKeys_frame in Hloop as [? _]|].
      destruct (createDSKeys_error _ _ _ _ _ _ _ _ _ _ _ _ _ Hloop)
        as [(ds' & ? & _ & ? & ?)|?]; [left; by exists ds'|by right].
    + exfalso.
      destruct (createDSKeys_needs_matchlists _ _ _ _ _ _ _ _ _ _ _ _ _ Hloop ds Hds)
        as [m Hm]; [by rewrite eligible_orb|].
      rewrite Hname in Hm. by rewrite Hnone in Hm.
Qed.

End AsRead.

(** ** More on the handlers *)
Section HandlersMore.
Import golang.
Context `{C : deliveryservice.Collaborators}.

Lemma Close_bools inf h h' :
  api.Close inf h = Some h' -> sql.bools h' = sql.bools h.
Proof.
  unfold api.Close, dbhelpers.FinishTxX, sql.Commit, sql.Rollback, sql.finish.
  simpl. destruct (sql.bools h !! api.CommitTx inf) as [b|]; [|done]. simpl.
  destruct b; simpl; intros [= <-];
    by destruct (sql.txs h !! sql.id (sqlx.Tx_ (api.Tx inf))) as [[]|].
Qed.

(** X20: whenever the handler [CreateDNSSECKeys] replies with anything but
    [api.WriteResp], the key store, the change log and the commit flag are
    as they were before the request. *)
Theorem CreateDNSSECKeys_writes_only_on_success newInfo parsed now (w : cdn.World)
    reply w' :
  cdn.CreateDNSSECKeys newInfo parsed now w = Some (reply, w') ->
  (forall v, reply <> api.WriteResp v) ->
  riaksvc.objects (cdn.riak w') = riaksvc.objects (cdn.riak w)
  /\ cdn.changelog w' = cdn.changelog w
  /\ sql.bools (cdn.heap w') = sql.bools (cdn.heap w).
Proof.
  intros H Hnot. unfold cdn.CreateDNSSECKeys in H.
  destruct newInfo as [[[inf userErr] sysErr] errCode].
  destruct (bool_decide _ || bool_decide _); [by injection H as <- <-|].
  destruct inf as [inf|]; [|done]. cbn [mbind option_bind] in H.
  unfold cdn.deferred_Close in H.
  destruct parsed as [err|req].
  - cbn [fst snd] in H.
    destruct (api.Close inf (cdn.heap w)) as [h|] eqn:Hc; [|done].
    injection H as <- <-. apply Close_bools in Hc. done.
  - destruct (cdn.generateStoreDNSSECKeys _ _ _ _ _ _ _ w) as [[e|] w1] eqn:Hrun.
    + cbn [fst snd] in H.
      destruct (api.Close inf (cdn.heap w1)) as [h|] eqn:Hc; [|done].
      injection H as <- <-. apply Close_bools in Hc.
      apply failed_rotation_frame in Hrun as (Ho & Hh & Hl).
      simpl. by rewrite Hc, Ho, Hh, Hl.
    + cbn [fst snd] in H.
      destruct (api.Close inf _) as [h|]; [|done].
      injection H as <- <-. by destruct (Hnot _ eq_refl).
Qed.

(** X21: the handler [DeleteDNSSECKeys], once [api.NewInfo] has
    succeeded, ends in one of two ways: the success reply, with the object
    (dnssec, name) removed from the key store, one entry appended to the
    change log and the commit flag set; or a 500, with the key store, the
    change log and the commit flag as they were. *)
Theorem DeleteDNSSECKeys_outcome (inf : api.APIInfo) (errCode : Z) (w : cdn.World)
    reply w' :
  cdn.DeleteDNSSECKeys (Some inf, None, None, errCode) w = Some (reply, w') ->
  let key := default "" (api.Params inf !! "name") in
  (reply = api.WriteResp ("Successfully deleted dnssec for " +:+ key)
   /\ riaksvc.objects (cdn.riak w')
      = delete (cdn.CDNDNSSECKeyType, key) (riaksvc.objects (cdn.riak w))
   /\ cdn.changelog w'
      = cdn.changelog w ++ [("Deleted DNSSEC keys for CDN " +:+ key, api.User inf)]
   /\ sql.bools (cdn.heap w') !! api.CommitTx inf = Some true)
  \/ (api.statusCode reply = api.StatusInternalServerError
      /\ riaksvc.objects (cdn.riak w') = riaksvc.objects (cdn.riak w)
      /\ cdn.changelog w' = cdn.changelog w
      /\ sql.bools (cdn.heap w') = sql.bools (cdn.heap w)).
Proof.
  intros H key. unfold cdn.DeleteDNSSECKeys in H.
  cbn [mbind option_bind orb] in H. simpl in H.
  unfold cdn.deferred_Close in H. fold key in H.
  unfold riaksvc.GetRiakClusterTx, riaksvc.Start, riaksvc.DeleteObject in H.
  destruct (riaksvc.call (cdn.riak w)) as [[e1|] c1] eqn:H1;
    pose proof (call_objects _ _ _ H1) as Ho1.
  { cbn [fst snd] in H. simpl in H.
    destruct (api.Close inf (cdn.heap w)) as [h|] eqn:Hc; [|done].
    injection H as <- <-. apply Close_bools in Hc. right. simpl. by rewrite Ho1. }
  destruct (riaksvc.call c1) as [[e2|] c2] eqn:H2;
    pose proof (call_objects _ _ _ H2) as Ho2.
  { cbn [fst snd] in H. simpl in H.
    destruct (api.Close inf (cdn.heap w)) as [h|] eqn:Hc; [|done].
    injection H as <- <-. apply Close_bools in Hc. right. simpl.
    by rewrite Ho2, Ho1. }
  destruct (riaksvc.call c2) as [[e3|] c3] eqn:H3;
    pose proof (call_objects _ _ _ H3) as Ho3.
  { cbn [fst snd] in H. simpl in H.
    destruct (api.Close inf (cdn.heap w)) as [h|] eqn:Hc; [|done].
    injection H as <- <-. apply Close_bools in Hc. right. simpl.
    unfold riaksvc.StopCluster. by rewrite Ho3, Ho2, Ho1. }
  cbn [fst snd] in H. simpl in H.
  destruct (api.Close inf _) as [h|] eqn:Hc; [|done].
  injection H as <- <-. apply Close_bools in Hc. left. simpl.
  unfold riaksvc.StopCluster. simpl.
  rewrite Hc, Ho3, Ho2, Ho1. simpl. by rewrite lookup_insert_eq.
Qed.

End HandlersMore.

(** * The further properties on concrete inputs *)
Section MoreExamples.
Import golang.

Lemma unique_violation_is_parsed_witness :
  dbhelpers.ParsePQUniqueConstraintError (errors_New "database access error")
    {| pq.Constraint := "idx_ds_xml_id";
       pq.Detail := "Key (xml_id)=(d1) already exists." |}
  = (errors_New "xml_id d1 already exists.", tc.DataConflictError).
Proof.
  exact (unique_violation_is_parsed (errors_New "database access error")
           "idx_ds_xml_id" "xml_id" "d1" ltac:(discriminate) eq_refl eq_refl).
Defined.

Lemma unique_violation_with_equals_sign_is_not_parsed_witness :
  dbhelpers.ParsePQUniqueConstraintError (errors_New "database access error")
    {| pq.Constraint := "idx_param";
       pq.Detail := "Key (value)=(a=b) already exists." |}
  = (errors_New "database access error", tc.SystemError).
Proof.
  exact (unique_violation_with_equals_sign_is_not_parsed
           (errors_New "database access error") "idx_param" "value" "a=b"
           eq_refl eq_refl).
Defined.

Lemma refused_parameter_empties_the_clauses_witness :
  exists queryValues errs,
    dbhelpers.BuildWhereAndOrderBy sample.order sample.blank_params sample.cols
    = ("", "", queryValues, errs)
    /\ errors_New "cdn cannot be blank" ∈ errs
    /\ queryValues !! "cdn" = None.
Proof.
  destruct (refused_parameter_empties_the_clauses sample.order sample.blank_params
              sample.cols "cdn"
              {| dbhelpers.Column := "cdn.name";
                 dbhelpers.Checker := Some sample.notBlank |}
              "" (errors_New "cannot be blank"))
    as (queryValues & errs & Hb & He & Hq & _).
  - apply list_elem_of_here.
  - reflexivity.
  - reflexivity.
  - reflexivity.
  - by exists queryValues, errs.
Defined.

(** The values of both sample requests pass the checkers. *)
Lemma sample_params_accepted xmlId cdnName key colInfo urlValue :
  cdnName <> "" ->
  key ∈ sample.order ->
  sample.cols !! key = Some colInfo ->
  sample.params xmlId cdnName !! key = Some urlValue ->
  dbhelpers.check colInfo urlValue = None.
Proof.
  intros Hne Hin Hci Hp.
  apply elem_of_cons in Hin as [->|Hin].
  - assert (sample.cols !! "cdn"
            = Some {| dbhelpers.Column := "cdn.name";
                      dbhelpers.Checker := Some sample.notBlank |}) as H0
      by reflexivity.
    rewrite H0 in Hci. injection Hci as <-.
    assert (sample.params xmlId cdnName !! "cdn" = Some cdnName) as H1
      by reflexivity.
    rewrite H1 in Hp. injection Hp as <-.
    unfold dbhelpers.check, sample.notBlank. simpl.
    by destruct cdnName.
  - apply elem_of_cons in Hin as [->|Hin]; [|by apply elem_of_nil in Hin].
    assert (sample.cols !! "xmlId"
            = Some {| dbhelpers.Column := "ds.xml_id";
                      dbhelpers.Checker := None |}) as H0
      by reflexivity.
    rewrite H0 in Hci. by injection Hci as <-.
Qed.

Lemma clauses_of_accepted_parameters_witness :
  exists queryValues,
    dbhelpers.BuildWhereAndOrderBy sample.order (sample.params "d1" "cdn-a")
      sample.cols
    = (String dbhelpers.newline "WHERE cdn.name=:cdn AND ds.xml_id=:xmlId",
       String dbhelpers.newline "ORDER BY ds.xml_id", queryValues, []).
Proof.
  destruct (clauses_of_accepted_parameters sample.order (sample.params "d1" "cdn-a")
              sample.cols) as [queryValues H].
  - intros key colInfo urlValue. by apply sample_params_accepted.
  - exists queryValues. exact H.
Defined.

Lemma sql_text_is_independent_of_the_values_witness :
  (dbhelpers.BuildWhereAndOrderBy sample.order (sample.params "d1" "cdn-a")
     sample.cols).1.1
  = (dbhelpers.BuildWhereAndOrderBy sample.order (sample.params "d2" "cdn-b")
       sample.cols).1.1.
Proof.
  apply (sql_text_is_independent_of_the_values sample.order
           (sample.params "d1" "cdn-a") (sample.params "d2" "cdn-b") sample.cols).
  - intros key Hin.
    apply elem_of_cons in Hin as [->|Hin]; [by split; eexists|].
    apply elem_of_cons in Hin as [->|Hin]; [by split; eexists|].
    by apply elem_of_nil in Hin.
  - reflexivity.
  - intros key colInfo urlValue. by apply sample_params_accepted.
  - intros key colInfo urlValue. by apply sample_params_accepted.
Defined.

Lemma iteration_order_only_reorders_witness :
  (dbhelpers.BuildWhereAndOrderBy ["cdn"; "xmlId"] (sample.params "d1" "cdn-a")
     sample.cols).1.2
  = (dbhelpers.BuildWhereAndOrderBy ["xmlId"; "cdn"] (sample.params "d1" "cdn-a")
       sample.cols).1.2.
Proof.
  apply (iteration_order_only_reorders ["cdn"; "xmlId"] ["xmlId"; "cdn"]
           (sample.params "d1" "cdn-a") sample.cols).
  apply perm_swap.
Defined.

Lemma failed_rotation_reports_the_step_witness :
  riaksvc.objects (cdn.riak (sample.world ∅ ∅)) = ∅.
Proof.
  exact (proj1 (failed_rotation_reports_the_step
                  (C := sample.collaborators ∅) cdn.getCDNDeliveryServices sample.tx
                  sample.cfg "cdn-a" 3600 365 30 1700000000 (sample.world ∅ ∅)
                  (errors_New "getting DNSSec keys from Riak: no DNSSec keys for CDN")
                  (sample.world ∅ ∅) eq_refl)).
Defined.

Lemma rotation_leaves_other_bundles_witness :
  cdn.stored sample.warm_rotation.2 "cdn-b"
  = cdn.stored (sample.world sample.both_matchlists sample.warm) "cdn-b".
Proof.
  apply (proj1 (rotation_leaves_other_bundles
                  (C := sample.collaborators sample.both_matchlists)
                  (sample.reader sample.both_matchlists sample.dses) sample.tx
                  sample.cfg "cdn-a" 3600 365 30 1700000000
                  (sample.world sample.both_matchlists sample.warm)
                  sample.warm_rotation.1 sample.warm_rotation.2 eq_refl)).
  discriminate.
Defined.

Lemma rotation_fails_on_any_delivery_service_witness :
  exists e w',
    cdn.generateStoreDNSSECKeys (C := sample.collaborators sample.both_matchlists)
      sample.tx_with_ds sample.cfg "cdn-a" 3600 365 30 1700000000
      (sample.world sample.both_matchlists sample.warm) = (Some e, w')
    /\ riaksvc.objects (cdn.riak w') = sample.warm.
Proof.
  exact (rotation_fails_on_any_delivery_service
           (C := sample.collaborators sample.both_matchlists) sample.tx_with_ds
           sample.cfg "cdn-a" 3600 365 30 1700000000
           (sample.world sample.both_matchlists sample.warm)
           {| sql.xml_id := "d1"; sql.protocol := Some 0%Z; sql.type_name := "HTTP";
              sql.routing_name := "cdn"; sql.cdn_domain := "example.net" |}
           [] eq_refl).
Defined.

Lemma successful_rotation_writes_the_apex_only_witness :
  exists w' oldKeys,
    cdn.generateStoreDNSSECKeys (C := sample.collaborators ∅) sample.tx sample.cfg
      "cdn-a" 3600 365 30 1700000000 (sample.world ∅ sample.warm) = (None, w')
    /\ cdn.stored (sample.world ∅ sample.warm) "cdn-a" = Some oldKeys
    /\ cdn.stored w' "cdn-a"
       = Some {[ "cdn-a" := cdn.demoteCDNKeys oldKeys "cdn-a"
                              (time.mul (time.Duration 3600) time.Second)
                              1700000000 ]}.
Proof.
  eexists. 
  assert (cdn.generateStoreDNSSECKeys (C := sample.collaborators ∅) sample.tx
            sample.cfg "cdn-a" 3600 365 30 1700000000 (sample.world ∅ sample.warm)
          = (None, ?[w'])) as Hrun by reflexivity.
  destruct (successful_rotation_writes_the_apex_only _ _ _ _ _ _ _ _ _ Hrun)
    as (_ & oldKeys & Hold & Hnew).
  exists oldKeys. split; [exact Hrun|]. by split.
Defined.

Lemma demotion_twice_witness :
  length (tc.KSK (cdn.demoteCDNKeys
                    (<["cdn-a" := cdn.demoteCDNKeys sample.warm_bundle "cdn-a"
                                    3600000000000 1700000000]> sample.warm_bundle)
                    "cdn-a" 7200000000000 1800000000)) = 3%nat.
Proof.
  rewrite (demotion_twice sample.warm_bundle "cdn-a" 3600000000000 1700000000
             7200000000000 1800000000
             {| tc.ZSK := [sample.apex_key "new"]; tc.KSK := [sample.apex_key "new"] |}
             (sample.apex_key "new") [] sample.warm_bundle eq_refl eq_refl).
  reflexivity.
Defined.

Lemma CreateDNSSECKeys_writes_only_on_success_witness :
  exists reply w',
    cdn.CreateDNSSECKeys (C := sample.collaborators ∅)
      (Some (sample.inf "cdn-a"), None, None, 200%Z) (inr (sample.req 3600))
      1700000000 (sample.world ∅ ∅) = Some (reply, w')
    /\ riaksvc.objects (cdn.riak w') = ∅
    /\ cdn.changelog w' = []
    /\ sql.bools (cdn.heap w') = {[ 7%nat := false ]}.
Proof.
  eexists _, _. split; [reflexivity|].
  eapply (CreateDNSSECKeys_writes_only_on_success (C := sample.collaborators ∅)
            (Some (sample.inf "cdn-a"), None, None, 200%Z) (inr (sample.req 3600))
            1700000000 (sample.world ∅ ∅)); [reflexivity|].
  intros v. discriminate.
Defined.

Lemma DeleteDNSSECKeys_outcome_witness :
  exists reply w',
    cdn.DeleteDNSSECKeys (C := sample.collaborators ∅)
      (Some (sample.inf "cdn-a"), None, None, 200%Z) (sample.world ∅ sample.warm)
    = Some (reply, w')
    /\ (reply = api.WriteResp "Successfully deleted dnssec for cdn-a"
        /\ riaksvc.objects (cdn.riak w') = delete ("dnssec", "cdn-a") sample.warm
        /\ cdn.changelog w' = [("Deleted DNSSEC keys for CDN cdn-a", "admin")]
        /\ sql.bools (cdn.heap w') !! 7%nat = Some true
        \/ api.statusCode reply = 500%Z
           /\ riaksvc.objects (cdn.riak w') = sample.warm
           /\ cdn.changelog w' = []
           /\ sql.bools (cdn.heap w') = {[ 7%nat := false ]}).
Proof.
  eexists _, _. split; [reflexivity|].
  eapply (DeleteDNSSECKeys_outcome (C := sample.collaborators ∅) (sample.inf "cdn-a")
            200 (sample.world ∅ sample.warm)). reflexivity.
Defined.

End MoreExamples.

(** * The rotation of a CDN that has a delivery service *)
Section AsReadExamples.
Import golang.

Lemma missing_match_list_stops_the_rotation_witness :
  exists e w',
    cdn.generateStoreDNSSECKeys (C := sample.collaborators sample.d2_matchlist)
      sample.tx_with_ds sample.cfg "cdn-a" 3600 365 30 1700000000
      (sample.world sample.d2_matchlist sample.warm) = (Some e, w')
    /\ riaksvc.objects (cdn.riak w') = sample.warm
    /\ forall name,
         cdn.stored w' name
         = cdn.stored (sample.world sample.d2_matchlist sample.warm) name.
Proof.
  refine (proj1 (missing_match_list_stops_the_rotation
           (C := sample.collaborators sample.d2_matchlist) sample.tx_with_ds
           sample.cfg "cdn-a" 3600 365 30 1700000000
           (sample.world sample.d2_matchlist sample.warm)
           [ {| sql.xml_id := "d1"; sql.protocol := Some 0%Z; sql.type_name := "HTTP";
                sql.routing_name := "cdn"; sql.cdn_domain := "example.net" |} ]
           {| sql.xml_id := "d1"; sql.protocol := Some 0%Z; sql.type_name := "HTTP";
              sql.routing_name := "cdn"; sql.cdn_domain := "example.net" |}
           sample.d2_matchlist _ _ _ _ _)).
  - reflexivity.
  - apply list_elem_of_here.
  - reflexivity.
  - reflexivity.
  - reflexivity.
Defined.

(** C4 fails on [generateStoreDNSSECKeys] as written.  The key store holds
    the bundle of cdn-a and the DB lists one delivery service of cdn-a, d1
    of type HTTP, with a match list.  The rotation returns the error of
    [rows.Scan], which line 170 hands [dsTypeStr] instead of its address,
    and writes nothing: the stored bundle is the old one, with no key set
    under d1.  Handed the same delivery service decoded, the rest of the
    function returns nil and writes under d1 a key set whose heads are
    new. *)
Theorem eligible_ds_gets_no_key_set :
  let w := sample.world sample.both_matchlists sample.warm in
  (exists e w',
     cdn.generateStoreDNSSECKeys (C := sample.collaborators sample.both_matchlists)
       sample.tx_with_ds sample.cfg "cdn-a" 3600 365 30 1700000000 w = (Some e, w')
     /\ Contains (Error e) "scanning cdn delivery services" = true
     /\ Contains (Error e) "destination not a pointer" = true
     /\ cdn.stored w' "cdn-a" = Some sample.warm_bundle
     /\ sample.warm_bundle !! "d1" = None)
  /\ (exists w' bundle ks,
        cdn.generateStoreDNSSECKeysFrom
          (C := sample.collaborators sample.both_matchlists)
          (fun _ _ => inr ([sample.ds sample.both_matchlists "d1" "HTTP"],
                           "example.net"))
          sample.tx_with_ds sample.cfg "cdn-a" 3600 365 30 1700000000 w = (None, w')
        /\ cdn.stored w' "cdn-a" = Some bundle
        /\ bundle !! "d1" = Some ks
        /\ cdn.headsAreNew ks = true).
Proof.
  split.
  - eexists _, _. split; [reflexivity|]. repeat split; reflexivity.
  - eexists _, _, _. split; [reflexivity|]. split; [reflexivity|].
    split; reflexivity.
Qed.

(** C6 fails on [generateStoreDNSSECKeys] as written.  The key store holds
    the bundle of cdn-a and the DB lists one delivery service of cdn-a, d3
    of type ANY_MAP.  The rotation does not pass over d3: it returns the
    error of [rows.Scan] (line 170) and writes no bundle at all.  Handed
    the same delivery service decoded, the rest of the function passes
    over it: it returns nil, mints no key and writes a bundle that has the
    CDN's key set and none under d3. *)
Theorem ineligible_ds_aborts_the_rotation :
  let w := sample.world sample.both_matchlists sample.warm in
  (exists e w',
     cdn.generateStoreDNSSECKeys (C := sample.collaborators sample.both_matchlists)
       sample.tx_with_any_map sample.cfg "cdn-a" 3600 365 30 1700000000 w = (Some e, w')
     /\ Contains (Error e) "scanning cdn delivery services" = true
     /\ Contains (Error e) "destination not a pointer" = true
     /\ riaksvc.objects (cdn.riak w') = sample.warm
     /\ cdn.keygen w' = cdn.keygen w)
  /\ (exists w' bundle,
        cdn.generateStoreDNSSECKeysFrom
          (C := sample.collaborators sample.both_matchlists)
          (fun _ _ => inr ([sample.ds sample.both_matchlists "d3" "ANY_MAP"],
                           "example.net"))
          sample.tx_with_any_map sample.cfg "cdn-a" 3600 365 30 1700000000 w = (None, w')
        /\ cdn.stored w' "cdn-a" = Some bundle
        /\ bundle !! "d3" = None
        /\ is_Some (bundle !! "cdn-a")
        /\ cdn.keygen w' = cdn.keygen w).
Proof.
  split.
  - eexists _, _. split; [reflexivity|]. repeat split; reflexivity.
  - eexists _, _. split; [reflexivity|]. split; [reflexivity|].
    split; [reflexivity|]. split; [|reflexivity]. eexists. reflexivity.
Qed.

End AsReadExamples.
